(** * Stack creation for the Z80 family: [up_create_stack]

    A shallow embedding of [arch/z80/src/common/z80_createstack.c] and the
    properties of the stack descriptor it leaves in the TCB.

    Integers of the C program are [Z] with their wrap-around written out:
    [uint32_t] arithmetic is reduced modulo [2^32], values stored in a
    [size_t] object modulo [2^size_bits].  Pointers are addresses in [Z];
    the null pointer is [0].  The allocators, the debug output and the board
    LED hook are external: the allocator is an interface, every call that
    leaves the function is recorded in a trace. *)

From Stdlib Require Import ZArith List Bool Lia.
Import ListNotations.
Local Open Scope Z_scope.

(** ** Build configuration and types declared outside this file *)

(** The preprocessor symbols the function tests, the width of [size_t]
    (and of a data pointer) of the target (16 for Z80, Z180 and Z8, 24 for
    the eZ80 in ADL mode), and the LED code the board header declares. *)
Record config : Type := {
  size_bits : Z;
  CONFIG_MM_KERNEL_HEAP : bool;
  CONFIG_DEBUG_FEATURES : bool;
  CONFIG_STACK_COLORATION : bool;
  LED_STACKCREATED : Z
}.

(** The three thread types of the [ttype] argument. *)
Inductive ttype_t : Type :=
| TCB_FLAG_TTYPE_TASK
| TCB_FLAG_TTYPE_PTHREAD
| TCB_FLAG_TTYPE_KERNEL.

Definition ttype_eqb (a b : ttype_t) : bool :=
  match a, b with
  | TCB_FLAG_TTYPE_TASK, TCB_FLAG_TTYPE_TASK => true
  | TCB_FLAG_TTYPE_PTHREAD, TCB_FLAG_TTYPE_PTHREAD => true
  | TCB_FLAG_TTYPE_KERNEL, TCB_FLAG_TTYPE_KERNEL => true
  | _, _ => false
  end.

(** The [int] result: [OK] or [ERROR]. *)
Inductive status : Type := OK | ERROR.

(** The stack fields of [struct tcb_s]; they are the only fields the
    function reads or writes. *)
Record tcb_s : Type := {
  stack_alloc_ptr : Z;
  adj_stack_ptr : Z;
  adj_stack_size : Z
}.

(** ** The outside world *)

(** The two heaps: [kmm_malloc]/[kmm_free] serve the kernel heap,
    [kumm_malloc]/[kumm_free] the user heap. *)
Inductive domain : Type := KernelHeap | UserHeap.

(** Calls that leave the function, in the order they are made. *)
Inductive event : Type :=
| EvMalloc (d : domain) (size : Z) (ret : Z)
| EvFree (d : domain) (p : Z)
| EvSerr (size : Z)
| EvAutoledOn (led : Z).

(** An allocator over some heap state: [mm_malloc d n h] returns the address
    of the new region ([0] when there is no memory) and the next heap. *)
Class MemoryAllocator (heap : Type) : Type := {
  mm_malloc : domain -> Z -> heap -> Z * heap;
  mm_free : domain -> Z -> heap -> heap
}.

Record world (heap : Type) : Type := {
  w_heap : heap;
  w_mem : Z -> Z;
  w_trace : list event
}.
Arguments w_heap {heap} _.
Arguments w_mem {heap} _ _.
Arguments w_trace {heap} _.
Arguments Build_world {heap} _ _ _.

(** ** A state monad over the TCB and the world *)

Definition M (heap A : Type) : Type := tcb_s * world heap -> A * (tcb_s * world heap).

Definition ret {heap A} (a : A) : M heap A := fun s => (a, s).

Definition bind {heap A B} (m : M heap A) (k : A -> M heap B) : M heap B :=
  fun s => k (fst (m s)) (snd (m s)).

Declare Scope stack_scope.
Delimit Scope stack_scope with stack.
Notation "x <- m ;; k" := (bind m (fun x => k))
  (at level 61, m at next level, right associativity) : stack_scope.
Notation "m ;; k" := (bind m (fun _ => k))
  (at level 61, right associativity) : stack_scope.
Local Open Scope stack_scope.

Definition get_tcb {heap} : M heap tcb_s := fun s => (fst s, s).

Definition set_stack_alloc_ptr {heap} (p : Z) : M heap unit := fun s =>
  (tt, ({| stack_alloc_ptr := p;
           adj_stack_ptr := adj_stack_ptr (fst s);
           adj_stack_size := adj_stack_size (fst s) |}, snd s)).

Definition set_adj_stack_ptr {heap} (p : Z) : M heap unit := fun s =>
  (tt, ({| stack_alloc_ptr := stack_alloc_ptr (fst s);
           adj_stack_ptr := p;
           adj_stack_size := adj_stack_size (fst s) |}, snd s)).

Definition set_adj_stack_size {heap} (n : Z) : M heap unit := fun s =>
  (tt, ({| stack_alloc_ptr := stack_alloc_ptr (fst s);
           adj_stack_ptr := adj_stack_ptr (fst s);
           adj_stack_size := n |}, snd s)).

Definition emit {heap} (e : event) : M heap unit := fun s =>
  (tt, (fst s, {| w_heap := w_heap (snd s);
                  w_mem := w_mem (snd s);
                  w_trace := w_trace (snd s) ++ [e] |})).

(** ** Machine integers *)

Definition wrap (bits x : Z) : Z := x mod 2 ^ bits.

Definition u32 (x : Z) : Z := wrap 32 x.

(** ** External functions *)

Section Externals.
Context {heap : Type} `{MemoryAllocator heap}.

Definition malloc_in (d : domain) (size : Z) : M heap Z := fun s =>
  let r := mm_malloc d size (w_heap (snd s)) in
  (fst r, (fst s, {| w_heap := snd r;
                     w_mem := w_mem (snd s);
                     w_trace := w_trace (snd s) ++ [EvMalloc d size (fst r)] |})).

Definition free_in (d : domain) (p : Z) : M heap unit := fun s =>
  (tt, (fst s, {| w_heap := mm_free d p (w_heap (snd s));
                  w_mem := w_mem (snd s);
                  w_trace := w_trace (snd s) ++ [EvFree d p] |})).

Definition kmm_malloc : Z -> M heap Z := malloc_in KernelHeap.
Definition kumm_malloc : Z -> M heap Z := malloc_in UserHeap.
Definition kmm_free : Z -> M heap unit := free_in KernelHeap.
Definition kumm_free : Z -> M heap unit := free_in UserHeap.

(** [memset(p, c, n)]: the [n] bytes from [p] become [(unsigned char)c]. *)
Definition memset (p c n : Z) : M heap unit := fun s =>
  (tt, (fst s, {| w_heap := w_heap (snd s);
                  w_mem := fun a => if (p <=? a) && (a <? p + n)
                                    then wrap 8 c else w_mem (snd s) a;
                  w_trace := w_trace (snd s) |})).

(** [serr]: the debug message of a failed allocation. *)
Definition serr (size : Z) : M heap unit := emit (EvSerr size).

Definition board_autoled_on (led : Z) : M heap unit := emit (EvAutoledOn led).
End Externals.

(** ** The function *)

Section CreateStack.
Variable cfg : config.
Context {heap : Type} `{MemoryAllocator heap}.

Definition to_size_t (x : Z) : Z := wrap (size_bits cfg) x.

(** Modelled from the spec: [up_release_stack] is not part of this file.
    It frees the region to the heap re-derived from the thread type and the
    build configuration, and resets the descriptor to the unallocated
    state: no region, adjusted fields cleared.  On a descriptor without a
    region it frees nothing. *)
Definition up_release_stack (ttype : ttype_t) : M heap unit :=
  tcb <- get_tcb ;;
  (if negb (stack_alloc_ptr tcb =? 0) then
     if CONFIG_MM_KERNEL_HEAP cfg && ttype_eqb ttype TCB_FLAG_TTYPE_KERNEL
     then kmm_free (stack_alloc_ptr tcb)
     else kumm_free (stack_alloc_ptr tcb)
   else ret tt) ;;
  set_stack_alloc_ptr 0 ;;
  set_adj_stack_ptr 0 ;;
  set_adj_stack_size 0.

(** [top_of_stack] after lines 158 and 164: the sum is computed in
    [uint32_t], stored in a [size_t], and masked with [~3]. *)
Definition top_of_stack (alloc_ptr stack_size : Z) : Z :=
  Z.land (to_size_t (u32 (u32 (u32 alloc_ptr + stack_size) - 4)))
         (to_size_t (Z.lnot 3)).

(** [size_of_stack] of line 165. *)
Definition size_of_stack (alloc_ptr stack_size : Z) : Z :=
  to_size_t (u32 (u32 (top_of_stack alloc_ptr stack_size - u32 alloc_ptr) + 4)).

Definition up_create_stack (stack_size : Z) (ttype : ttype_t) : M heap status :=
  tcb <- get_tcb ;;
  (* Is there already a stack allocated of a different size? *)
  (if negb (stack_alloc_ptr tcb =? 0) && negb (adj_stack_size tcb =? stack_size)
   then up_release_stack ttype
   else ret tt) ;;
  (* Do we need to allocate a new stack? *)
  tcb <- get_tcb ;;
  (if stack_alloc_ptr tcb =? 0 then
     (if CONFIG_MM_KERNEL_HEAP cfg then
        if ttype_eqb ttype TCB_FLAG_TTYPE_KERNEL
        then p <- kmm_malloc stack_size ;; set_stack_alloc_ptr p
        else p <- kumm_malloc stack_size ;; set_stack_alloc_ptr p
      else p <- kumm_malloc stack_size ;; set_stack_alloc_ptr p) ;;
     (if CONFIG_DEBUG_FEATURES cfg then
        tcb <- get_tcb ;;
        if stack_alloc_ptr tcb =? 0 then serr stack_size else ret tt
      else ret tt)
   else ret tt) ;;
  (* Did we successfully allocate a stack? *)
  tcb <- get_tcb ;;
  if negb (stack_alloc_ptr tcb =? 0) then
    (if CONFIG_STACK_COLORATION cfg
     then memset (stack_alloc_ptr tcb) 170 stack_size
     else ret tt) ;;
    set_adj_stack_ptr (top_of_stack (stack_alloc_ptr tcb) stack_size) ;;
    set_adj_stack_size (size_of_stack (stack_alloc_ptr tcb) stack_size) ;;
    board_autoled_on (LED_STACKCREATED cfg) ;;
    ret OK
  else ret ERROR.
End CreateStack.

Arguments to_size_t cfg x : simpl never.

(** ** Vocabulary of the specification *)

(** A width of [size_t] that a [uint32_t] can hold. *)
Definition wf_config (cfg : config) : Prop := 2 <= size_bits cfg <= 32.

(** [x] rounded down to a multiple of 4. *)
Definition round_down4 (x : Z) : Z := 4 * (x / 4).

(** The region [base, base + size) is a non-null region of the address space. *)
Definition region_in_address_space (cfg : config) (base size : Z) : Prop :=
  0 < base /\ 0 <= size /\ base + size <= 2 ^ size_bits cfg.

(** The calls to an allocator in a trace (heap, size, result), in order. *)
Fixpoint malloc_calls (evs : list event) : list (domain * Z * Z) :=
  match evs with
  | [] => []
  | EvMalloc d n r :: evs' => (d, n, r) :: malloc_calls evs'
  | _ :: evs' => malloc_calls evs'
  end.

(** The regions given back in a trace (heap, address), in order. *)
Fixpoint free_calls (evs : list event) : list (domain * Z) :=
  match evs with
  | [] => []
  | EvFree d p :: evs' => (d, p) :: free_calls evs'
  | _ :: evs' => free_calls evs'
  end.

(** The calls made between world [w] and a later world [w']. *)
Definition new_events {heap : Type} (w w' : world heap) : list event :=
  skipn (length (w_trace w)) (w_trace w').

(** The heap of the specification: the kernel heap for a kernel thread when
    there is a kernel heap, the user heap otherwise. *)
Definition select_domain (cfg : config) (ttype : ttype_t) : domain :=
  if ttype_eqb ttype TCB_FLAG_TTYPE_KERNEL && CONFIG_MM_KERNEL_HEAP cfg
  then KernelHeap else UserHeap.

(** The descriptor of a region at [p] adjusted for [size] bytes. *)
Definition adjusted (cfg : config) (p size : Z) : tcb_s :=
  {| stack_alloc_ptr := p;
     adj_stack_ptr := top_of_stack cfg p size;
     adj_stack_size := size_of_stack cfg p size |}.

(** The test of line 95: a region is held and the recorded adjusted size
    differs from the size asked for. *)
Definition must_release (tcb : tcb_s) (stack_size : Z) : bool :=
  negb (stack_alloc_ptr tcb =? 0) && negb (adj_stack_size tcb =? stack_size).

(** Memory after [n] bytes from [p] were set to [0xAA]. *)
Definition colored (mem : Z -> Z) (p n : Z) : Z -> Z :=
  fun a => if (p <=? a) && (a <? p + n) then 170 else mem a.

(** ** Concrete inputs: a Z80 build and a bump allocator *)

(** Both heaps carve regions from one arena that ends at [0x10000]; the heap
    state is the next free address, and nothing is ever recycled. *)
Definition bump_malloc (d : domain) (n : Z) (next : Z) : Z * Z :=
  if next + n <=? 65536 then (next, next + n) else (0, next).

#[local] Instance bump_allocator : MemoryAllocator Z := {
  mm_malloc := bump_malloc;
  mm_free := fun _ _ next => next
}.

Definition z80_config (kernel_heap debug coloration : bool) : config :=
  {| size_bits := 16;
     CONFIG_MM_KERNEL_HEAP := kernel_heap;
     CONFIG_DEBUG_FEATURES := debug;
     CONFIG_STACK_COLORATION := coloration;
     LED_STACKCREATED := 2 |}.

Definition tcb_unallocated : tcb_s :=
  {| stack_alloc_ptr := 0; adj_stack_ptr := 0; adj_stack_size := 0 |}.

(** A plain Z80 build, one with stack coloration, and one with a kernel
    heap and debug output. *)
Definition z80 : config := z80_config false false false.
Definition z80_colored : config := z80_config false false true.
Definition z80_kernel : config := z80_config true true false.

(** A world whose arena starts at [next], with zeroed memory. *)
Definition bump_world (next : Z) : world Z :=
  {| w_heap := next; w_mem := fun _ => 0; w_trace := [] |}.

(** The thread stores byte [v] at address [a]. *)
Definition poke (a v : Z) (s : tcb_s * world Z) : tcb_s * world Z :=
  (fst s, {| w_heap := w_heap (snd s);
             w_mem := fun x => if x =? a then v else w_mem (snd s) x;
             w_trace := w_trace (snd s) |}).

(** The state after one call on an unallocated descriptor, with the arena
    at [0x8000]. *)
Definition after_create (cfg : config) (size : Z) : tcb_s * world Z :=
  snd (up_create_stack cfg size TCB_FLAG_TTYPE_TASK
         (tcb_unallocated, bump_world 32768)).

(** A colored 8-byte stack in which the thread has since stored a byte. *)
Definition used_colored_stack : tcb_s * world Z :=
  poke 32772 18 (after_create z80_colored 8).

(** The debug messages of a trace (the sizes reported), in order. *)
Fixpoint serr_calls (evs : list event) : list Z :=
  match evs with
  | [] => []
  | EvSerr n :: evs' => n :: serr_calls evs'
  | _ :: evs' => serr_calls evs'
  end.

(** The LED codes switched on in a trace, in order. *)
Fixpoint autoled_calls (evs : list event) : list Z :=
  match evs with
  | [] => []
  | EvAutoledOn led :: evs' => led :: autoled_calls evs'
  | _ :: evs' => autoled_calls evs'
  end.

(** The same build with [CONFIG_DEBUG_FEATURES] defined or not. *)
Definition set_debug (cfg : config) (debug : bool) : config :=
  {| size_bits := size_bits cfg;
     CONFIG_MM_KERNEL_HEAP := CONFIG_MM_KERNEL_HEAP cfg;
     CONFIG_DEBUG_FEATURES := debug;
     CONFIG_STACK_COLORATION := CONFIG_STACK_COLORATION cfg;
     LED_STACKCREATED := LED_STACKCREATED cfg |}.

(** * Machine arithmetic *)

Section Arithmetic.
Variable cfg : config.
Hypothesis Hwf : wf_config cfg.

Lemma pow_size_bits_pos : 4 <= 2 ^ size_bits cfg.
Proof.
  unfold wf_config in Hwf.
  change 4 with (2 ^ 2). apply Z.pow_le_mono_r; lia.
Qed.

Lemma to_size_t_range x : 0 <= to_size_t cfg x < 2 ^ size_bits cfg.
Proof.
  unfold to_size_t, wrap. apply Z.mod_pos_bound.
  pose proof pow_size_bits_pos. lia.
Qed.

Lemma to_size_t_small x : 0 <= x < 2 ^ size_bits cfg -> to_size_t cfg x = x.
Proof. intros. unfold to_size_t, wrap. now apply Z.mod_small. Qed.

Lemma to_size_t_u32 x : to_size_t cfg (u32 x) = to_size_t cfg x.
Proof.
  unfold to_size_t, u32, wrap. unfold wf_config in Hwf.
  apply Z.mod_mod_divide.
  exists (2 ^ (32 - size_bits cfg)).
  rewrite <- Z.pow_add_r by lia. f_equal. lia.
Qed.

Lemma land_not3 x :
  0 <= x < 2 ^ size_bits cfg ->
  Z.land x (to_size_t cfg (Z.lnot 3)) = round_down4 x.
Proof.
  intros Hx. unfold wf_config in Hwf.
  replace (round_down4 x) with (Z.shiftl (Z.shiftr x 2) 2)
    by (rewrite Z.shiftl_mul_pow2, Z.shiftr_div_pow2 by lia;
        unfold round_down4; change (2 ^ 2) with 4; lia).
  unfold to_size_t, wrap.
  apply Z.bits_inj'; intros n Hn.
  rewrite Z.land_spec, Z.shiftl_spec by lia.
  destruct (Z_lt_dec n 2) as [Hlo | Hhi].
  - rewrite Z.mod_pow2_bits_low by lia.
    rewrite (Z.testbit_neg_r _ (n - 2)) by lia.
    assert (n = 0 \/ n = 1) as [-> | ->] by lia; now rewrite andb_false_r.
  - rewrite Z.shiftr_spec by lia. replace (n - 2 + 2) with n by lia.
    destruct (Z_lt_dec n (size_bits cfg)) as [Hin | Hout].
    + rewrite Z.mod_pow2_bits_low by lia.
      change 3 with (Z.ones 2).
      rewrite Z.lnot_spec, Z.ones_spec_high by lia.
      now rewrite andb_true_r.
    + rewrite Z.mod_pow2_bits_high by lia. rewrite andb_false_r.
      rewrite <- (Z.mod_small x (2 ^ size_bits cfg)) by lia.
      now rewrite Z.mod_pow2_bits_high by lia.
Qed.

Lemma to_size_t_add_u32 a b : to_size_t cfg (u32 a + b) = to_size_t cfg (a + b).
Proof.
  unfold to_size_t at 1 2, wrap.
  rewrite <- (Zplus_mod_idemp_l (u32 a)), <- (Zplus_mod_idemp_l a).
  change (u32 a mod 2 ^ size_bits cfg) with (to_size_t cfg (u32 a)).
  now rewrite to_size_t_u32.
Qed.

(** Lines 158 and 164 in one formula. *)
Lemma top_of_stack_eq p n :
  top_of_stack cfg p n = round_down4 (to_size_t cfg (p + n - 4)).
Proof.
  unfold top_of_stack. rewrite land_not3 by apply to_size_t_range.
  f_equal. rewrite to_size_t_u32.
  replace (u32 (u32 p + n) - 4) with (u32 (u32 p + n) + - 4) by lia.
  rewrite to_size_t_add_u32.
  replace (u32 p + n + - 4) with (u32 p + (n - 4)) by lia.
  rewrite to_size_t_add_u32. f_equal. lia.
Qed.

Lemma to_size_t_sub_u32 a b : to_size_t cfg (a - u32 b) = to_size_t cfg (a - b).
Proof.
  unfold to_size_t at 1 2, wrap.
  rewrite <- (Zminus_mod_idemp_r a (u32 b)), <- (Zminus_mod_idemp_r a b).
  change (u32 b mod 2 ^ size_bits cfg) with (to_size_t cfg (u32 b)).
  now rewrite to_size_t_u32.
Qed.

(** Line 165 in one formula. *)
Lemma size_of_stack_eq p n :
  size_of_stack cfg p n = to_size_t cfg (top_of_stack cfg p n - p + 4).
Proof.
  unfold size_of_stack. rewrite to_size_t_u32, to_size_t_add_u32.
  replace (top_of_stack cfg p n - u32 p + 4)
    with (top_of_stack cfg p n + 4 - u32 p) by lia.
  rewrite to_size_t_sub_u32. f_equal. lia.
Qed.

Lemma round_down4_bounds x : x - 3 <= round_down4 x <= x.
Proof.
  unfold round_down4. pose proof (Z.mod_pos_bound x 4 ltac:(lia)).
  pose proof (Z.div_mod x 4 ltac:(lia)). lia.
Qed.

Lemma round_down4_aligned x : x mod 4 = 0 -> round_down4 x = x.
Proof.
  unfold round_down4. pose proof (Z.div_mod x 4 ltac:(lia)). lia.
Qed.


(** Without wrap-around the two adjusted values are plain integers. *)
Lemma top_of_stack_exact p n :
  4 <= p + n <= 2 ^ size_bits cfg ->
  top_of_stack cfg p n = round_down4 (p + n - 4).
Proof.
  intros Hr. rewrite top_of_stack_eq, to_size_t_small; [reflexivity | lia].
Qed.

Lemma size_of_stack_exact p n :
  0 < p -> 4 <= n -> p + n <= 2 ^ size_bits cfg ->
  size_of_stack cfg p n = top_of_stack cfg p n - p + 4.
Proof.
  intros Hp Hn Hr. rewrite size_of_stack_eq. apply to_size_t_small.
  rewrite top_of_stack_exact by lia.
  pose proof (round_down4_bounds (p + n - 4)). lia.
Qed.

Lemma round_down4_multiple x : round_down4 x mod 4 = 0.
Proof. unfold round_down4. rewrite Z.mul_comm. apply Z.mod_mul. lia. Qed.
End Arithmetic.

(** * The three paths through [up_create_stack] *)

Ltac run_monad :=
  unfold up_create_stack, up_release_stack, kmm_malloc, kumm_malloc, kmm_free,
    kumm_free, malloc_in, free_in, memset, serr, board_autoled_on, emit,
    set_stack_alloc_ptr, set_adj_stack_ptr, set_adj_stack_size, get_tcb,
    bind, ret; cbn [fst snd stack_alloc_ptr adj_stack_ptr adj_stack_size
                    w_heap w_mem w_trace negb andb].

Section Paths.
Variable cfg : config.
Context {heap : Type} `{MemoryAllocator heap}.

(** Reuse: a region is held and the recorded adjusted size is the size asked
    for.  No allocator is called. *)
Lemma create_reuse tcb (w : world heap) size ttype :
  stack_alloc_ptr tcb <> 0 ->
  adj_stack_size tcb = size ->
  up_create_stack cfg size ttype (tcb, w) =
  (OK, (adjusted cfg (stack_alloc_ptr tcb) size,
        {| w_heap := w_heap w;
           w_mem := if CONFIG_STACK_COLORATION cfg
                    then colored (w_mem w) (stack_alloc_ptr tcb) size
                    else w_mem w;
           w_trace := w_trace w ++ [EvAutoledOn (LED_STACKCREATED cfg)] |})).
Proof.
  intros Hp Hs. apply Z.eqb_neq in Hp. apply Z.eqb_eq in Hs.
  run_monad. repeat (rewrite ?Hp, ?Hs; run_monad).
  destruct (CONFIG_STACK_COLORATION cfg); run_monad; reflexivity.
Qed.

(** Fresh allocation: no region is held. *)
Lemma create_fresh tcb (w : world heap) size ttype :
  stack_alloc_ptr tcb = 0 ->
  up_create_stack cfg size ttype (tcb, w) =
  let d := select_domain cfg ttype in
  let r := mm_malloc d size (w_heap w) in
  if fst r =? 0 then
    (ERROR, ({| stack_alloc_ptr := 0;
                adj_stack_ptr := adj_stack_ptr tcb;
                adj_stack_size := adj_stack_size tcb |},
             {| w_heap := snd r;
                w_mem := w_mem w;
                w_trace := w_trace w ++
                  EvMalloc d size 0 ::
                  (if CONFIG_DEBUG_FEATURES cfg then [EvSerr size] else []) |}))
  else
    (OK, (adjusted cfg (fst r) size,
          {| w_heap := snd r;
             w_mem := if CONFIG_STACK_COLORATION cfg
                      then colored (w_mem w) (fst r) size
                      else w_mem w;
             w_trace := w_trace w ++
               [EvMalloc d size (fst r); EvAutoledOn (LED_STACKCREATED cfg)] |})).
Proof.
  intros Hp. run_monad. rewrite Hp. cbn [Z.eqb negb andb]. run_monad.
  rewrite Hp. cbn [Z.eqb]. unfold select_domain.
  destruct (CONFIG_MM_KERNEL_HEAP cfg), (ttype_eqb ttype TCB_FLAG_TTYPE_KERNEL);
    cbn [andb]; run_monad;
    match goal with
    | |- context [mm_malloc ?d size (w_heap w)] =>
        destruct (mm_malloc d size (w_heap w)) as [p h'] eqn:Hm
    end; cbn [fst snd];
    destruct (CONFIG_DEBUG_FEATURES cfg), (CONFIG_STACK_COLORATION cfg);
    destruct (p =? 0) eqn:Hz; repeat (rewrite ?Hz; run_monad);
    try (apply Z.eqb_eq in Hz; subst p);
    rewrite <- ?app_assoc; reflexivity.
Qed.

(** Release: a region is held and the recorded adjusted size differs from
    the size asked for.  The region is freed, and the call goes on as from
    an unallocated descriptor. *)
Lemma create_release tcb (w : world heap) size ttype :
  stack_alloc_ptr tcb <> 0 ->
  adj_stack_size tcb <> size ->
  up_create_stack cfg size ttype (tcb, w) =
  up_create_stack cfg size ttype
    (tcb_unallocated,
     {| w_heap := mm_free (select_domain cfg ttype) (stack_alloc_ptr tcb) (w_heap w);
        w_mem := w_mem w;
        w_trace := w_trace w ++
          [EvFree (select_domain cfg ttype) (stack_alloc_ptr tcb)] |}).
Proof.
  intros Hp Hs. apply Z.eqb_neq in Hp. apply Z.eqb_neq in Hs.
  run_monad. rewrite Hp, Hs. cbn [negb andb]. run_monad.
  rewrite Hp. cbn [negb Z.eqb andb]. unfold select_domain.
  destruct (CONFIG_MM_KERNEL_HEAP cfg), (ttype_eqb ttype TCB_FLAG_TTYPE_KERNEL);
    cbn [andb]; run_monad; reflexivity.
Qed.

(** All paths at once: what a call returns and leaves behind, as a function
    of the descriptor, the heap and the build. *)
Lemma create_cases tcb (w : world heap) size ttype :
  up_create_stack cfg size ttype (tcb, w) =
  let d := select_domain cfg ttype in
  let rel := must_release tcb size in
  let pre := if rel then [EvFree d (stack_alloc_ptr tcb)] else [] in
  let r := mm_malloc d size
             (if rel then mm_free d (stack_alloc_ptr tcb) (w_heap w)
              else w_heap w) in
  if negb (stack_alloc_ptr tcb =? 0) && (adj_stack_size tcb =? size) then
    (OK, (adjusted cfg (stack_alloc_ptr tcb) size,
          {| w_heap := w_heap w;
             w_mem := if CONFIG_STACK_COLORATION cfg
                      then colored (w_mem w) (stack_alloc_ptr tcb) size
                      else w_mem w;
             w_trace := w_trace w ++ [EvAutoledOn (LED_STACKCREATED cfg)] |}))
  else if fst r =? 0 then
    (ERROR, ({| stack_alloc_ptr := 0;
                adj_stack_ptr := if rel then 0 else adj_stack_ptr tcb;
                adj_stack_size := if rel then 0 else adj_stack_size tcb |},
             {| w_heap := snd r;
                w_mem := w_mem w;
                w_trace := w_trace w ++ pre ++
                  EvMalloc d size 0 ::
                  (if CONFIG_DEBUG_FEATURES cfg then [EvSerr size] else []) |}))
  else
    (OK, (adjusted cfg (fst r) size,
          {| w_heap := snd r;
             w_mem := if CONFIG_STACK_COLORATION cfg
                      then colored (w_mem w) (fst r) size
                      else w_mem w;
             w_trace := w_trace w ++ pre ++
               [EvMalloc d size (fst r); EvAutoledOn (LED_STACKCREATED cfg)] |})).
Proof.
  unfold must_release.
  destruct (Z.eqb_spec (stack_alloc_ptr tcb) 0) as [Hp | Hp];
    [| destruct (Z.eqb_spec (adj_stack_size tcb) size) as [Hs | Hs]];
    cbn [negb andb].
  - rewrite create_fresh by assumption. cbv zeta. cbn [app]. reflexivity.
  - now apply create_reuse.
  - rewrite create_release by assumption.
    rewrite create_fresh by reflexivity. cbv zeta.
    cbn [w_heap w_mem w_trace tcb_unallocated adj_stack_ptr adj_stack_size].
    rewrite <- !app_assoc. reflexivity.
Qed.
End Paths.

(** * What a call leaves in the descriptor *)

Section Descriptor.
Variable cfg : config.
Context {heap : Type} `{MemoryAllocator heap}.

(** The result tells whether the descriptor holds a region, and on success
    both adjusted fields come from lines 158 to 170. *)
Lemma create_result tcb (w : world heap) size ttype res tcb' w' :
  up_create_stack cfg size ttype (tcb, w) = (res, (tcb', w')) ->
  (res = OK /\ stack_alloc_ptr tcb' <> 0 /\
   tcb' = adjusted cfg (stack_alloc_ptr tcb') size) \/
  (res = ERROR /\ stack_alloc_ptr tcb' = 0).
Proof.
  rewrite create_cases. cbv zeta.
  destruct (Z.eqb_spec (stack_alloc_ptr tcb) 0) as [Hp | Hp]; cbn [negb andb].
  - match goal with |- context [fst ?r =? 0] => destruct (Z.eqb_spec (fst r) 0) end;
      intros E; inversion E; subst; cbn; auto.
  - destruct (adj_stack_size tcb =? size).
    + intros E; inversion E; subst; cbn; auto.
    + match goal with |- context [fst ?r =? 0] => destruct (Z.eqb_spec (fst r) 0) end;
        intros E; inversion E; subst; cbn; auto.
Qed.

Lemma create_ok tcb (w : world heap) size ttype tcb' w' :
  up_create_stack cfg size ttype (tcb, w) = (OK, (tcb', w')) ->
  stack_alloc_ptr tcb' <> 0 /\
  adj_stack_ptr tcb' = top_of_stack cfg (stack_alloc_ptr tcb') size /\
  adj_stack_size tcb' = size_of_stack cfg (stack_alloc_ptr tcb') size.
Proof.
  intros E. destruct (create_result _ _ _ _ _ _ _ E) as [(_ & Hp & Ht) | (Hr & _)].
  - split; [exact Hp |]. rewrite Ht at 1 3. cbn. auto.
  - discriminate.
Qed.
End Descriptor.

(** * The calls a call makes *)

Lemma new_events_app {heap : Type} (w w' : world heap) evs :
  w_trace w' = w_trace w ++ evs -> new_events w w' = evs.
Proof.
  intros E. unfold new_events. rewrite E.
  rewrite skipn_app, skipn_all, Nat.sub_diag. reflexivity.
Qed.

Section Calls.
Variable cfg : config.
Context {heap : Type} `{MemoryAllocator heap}.

(** On the reuse path the only call is the LED hook; heap and region stay. *)
Lemma create_calls_reuse tcb (w : world heap) size ttype res tcb' w' :
  up_create_stack cfg size ttype (tcb, w) = (res, (tcb', w')) ->
  stack_alloc_ptr tcb <> 0 ->
  adj_stack_size tcb = size ->
  res = OK /\
  new_events w w' = [EvAutoledOn (LED_STACKCREATED cfg)] /\
  stack_alloc_ptr tcb' = stack_alloc_ptr tcb /\
  w_heap w' = w_heap w.
Proof.
  intros E Hp Hs. rewrite create_reuse in E by assumption.
  inversion E; subst res tcb' w'. cbn. repeat split.
  now apply new_events_app.
Qed.

(** On the other paths: an optional free, then one allocation, then calls
    that touch no heap. *)
Lemma create_calls_alloc tcb (w : world heap) size ttype res tcb' w' :
  up_create_stack cfg size ttype (tcb, w) = (res, (tcb', w')) ->
  stack_alloc_ptr tcb = 0 \/ adj_stack_size tcb <> size ->
  let d := select_domain cfg ttype in
  exists tail,
    new_events w w' =
      (if must_release tcb size then [EvFree d (stack_alloc_ptr tcb)] else []) ++
      EvMalloc d size (stack_alloc_ptr tcb') :: tail /\
    malloc_calls tail = [] /\ free_calls tail = [] /\
    (res = ERROR <-> stack_alloc_ptr tcb' = 0).
Proof.
  intros E Hc d. rewrite create_cases in E. cbv zeta in E. fold d in E.
  assert (Hno : negb (stack_alloc_ptr tcb =? 0) && (adj_stack_size tcb =? size) = false).
  { destruct Hc as [Hp | Hs].
    - rewrite Hp. reflexivity.
    - apply Z.eqb_neq in Hs. rewrite Hs. apply andb_false_r. }
  rewrite Hno in E.
  match type of E with context [fst ?r =? 0] => destruct (Z.eqb_spec (fst r) 0) as [Hz | Hz] end;
    inversion E; subst res tcb' w'; cbn [fst snd stack_alloc_ptr adjusted].
  - exists (if CONFIG_DEBUG_FEATURES cfg then [EvSerr size] else []).
    repeat split; try (destruct (CONFIG_DEBUG_FEATURES cfg); reflexivity).
    apply new_events_app. cbn [w_trace]. reflexivity.
  - exists [EvAutoledOn (LED_STACKCREATED cfg)].
    repeat split; try discriminate; try contradiction.
    apply new_events_app. cbn [w_trace]. reflexivity.
Qed.
End Calls.

Lemma malloc_calls_app evs1 evs2 :
  malloc_calls (evs1 ++ evs2) = malloc_calls evs1 ++ malloc_calls evs2.
Proof.
  induction evs1 as [| e evs1 IH]; [reflexivity |].
  destruct e; cbn; rewrite IH; reflexivity.
Qed.

Lemma free_calls_app evs1 evs2 :
  free_calls (evs1 ++ evs2) = free_calls evs1 ++ free_calls evs2.
Proof.
  induction evs1 as [| e evs1 IH]; [reflexivity |].
  destruct e; cbn; rewrite IH; reflexivity.
Qed.

Lemma malloc_calls_In evs d n r :
  In (EvMalloc d n r) evs <-> In (d, n, r) (malloc_calls evs).
Proof.
  induction evs as [| e evs IH]; [reflexivity |].
  destruct e; cbn; rewrite <- IH; intuition (try discriminate; congruence).
Qed.

(** * Running the model *)

(** 512 bytes for a task at [0x8000]: the whole region is usable. *)
Example create_512 :
  up_create_stack z80 512 TCB_FLAG_TTYPE_TASK (tcb_unallocated, bump_world 32768) =
  (OK, ({| stack_alloc_ptr := 32768; adj_stack_ptr := 33276; adj_stack_size := 512 |},
        {| w_heap := 33280; w_mem := fun _ => 0;
           w_trace := [EvMalloc UserHeap 512 32768; EvAutoledOn 2] |})).
Proof. reflexivity. Qed.

(** 10 bytes: the top is trimmed to a word boundary and 8 bytes remain. *)
Example create_10 :
  fst (after_create z80 10) =
  {| stack_alloc_ptr := 32768; adj_stack_ptr := 32772; adj_stack_size := 8 |}.
Proof. reflexivity. Qed.

(** No memory left: a kernel thread on a build with a kernel heap and debug
    output. *)
Example create_out_of_memory :
  up_create_stack z80_kernel 256 TCB_FLAG_TTYPE_KERNEL (tcb_unallocated, bump_world 65500) =
  (ERROR, (tcb_unallocated,
           {| w_heap := 65500; w_mem := fun _ => 0;
              w_trace := [EvMalloc KernelHeap 256 0; EvSerr 256] |})).
Proof. reflexivity. Qed.

(** * Properties of the specification *)

(** C1, as stated, fails over the integers: for 1 byte at [0x8001] the call
    succeeds and the adjusted pointer is [0x8001 + 1 - 4] rounded down to a
    multiple of 4, but that top minus the base plus 4 is [-1], and the
    adjusted size written is the [size_t] 65535. *)
Lemma C1_integer_difference_counterexample :
  let r := up_create_stack z80 1 TCB_FLAG_TTYPE_TASK
             (tcb_unallocated, bump_world 32769) in
  let tcb' := fst (snd r) in
  fst r = OK /\
  stack_alloc_ptr tcb' = 32769 /\
  adj_stack_ptr tcb' = round_down4 (32769 + 1 - 4) /\
  adj_stack_ptr tcb' - stack_alloc_ptr tcb' + 4 = -1 /\
  adj_stack_size tcb' = 65535 /\
  adj_stack_size tcb' <> adj_stack_ptr tcb' - stack_alloc_ptr tcb' + 4.
Proof. cbv zeta. repeat split; try reflexivity. vm_compute. discriminate. Qed.

(** C1, amended: after every successful call the adjusted stack pointer is
    [stack_alloc_ptr + stack_size - 4], reduced to a [size_t], rounded down
    to a multiple of 4, and the adjusted size is that rounded top minus
    [stack_alloc_ptr] plus 4, reduced to a [size_t]; when the region lies in
    the address space and holds at least one word, no reduction takes place
    and both are these integers. *)
Theorem C1_adjusted_pointer_and_size
    (cfg : config) (heap : Type) (A : MemoryAllocator heap)
    (tcb : tcb_s) (w : world heap) (size : Z) (ttype : ttype_t)
    (tcb' : tcb_s) (w' : world heap) :
  wf_config cfg ->
  up_create_stack cfg size ttype (tcb, w) = (OK, (tcb', w')) ->
  let base := stack_alloc_ptr tcb' in
  adj_stack_ptr tcb' = round_down4 (to_size_t cfg (base + size - 4)) /\
  adj_stack_size tcb' = to_size_t cfg (adj_stack_ptr tcb' - base + 4) /\
  (region_in_address_space cfg base size -> 4 <= size ->
   adj_stack_ptr tcb' = round_down4 (base + size - 4) /\
   adj_stack_size tcb' = adj_stack_ptr tcb' - base + 4).
Proof.
  intros Hwf E base. destruct (create_ok _ _ _ _ _ _ _ E) as (Hp & Ht & Hs).
  fold base in Ht, Hs. rewrite Hs, Ht.
  split; [now apply top_of_stack_eq |].
  split; [now apply size_of_stack_eq |].
  intros Hr Hword. unfold region_in_address_space in Hr.
  destruct Hr as (Hb & Hn & Hend). split.
  - apply top_of_stack_exact; [assumption | lia].
  - apply size_of_stack_exact; [assumption | lia ..].
Qed.

Lemma C1_adjusted_pointer_and_size_witness :
  let r := up_create_stack z80 512 TCB_FLAG_TTYPE_TASK
             (tcb_unallocated, bump_world 32768) in
  let tcb' := fst (snd r) in
  wf_config z80 /\
  r = (OK, (tcb', snd (snd r))) /\
  adj_stack_ptr tcb' = round_down4 (to_size_t z80 (32768 + 512 - 4)) /\
  adj_stack_size tcb' = to_size_t z80 (adj_stack_ptr tcb' - 32768 + 4) /\
  (region_in_address_space z80 32768 512 -> 4 <= 512 ->
   adj_stack_ptr tcb' = round_down4 (32768 + 512 - 4) /\
   adj_stack_size tcb' = adj_stack_ptr tcb' - 32768 + 4).
Proof.
  assert (Hwf : wf_config z80) by (unfold wf_config; cbn; lia).
  split; [exact Hwf |]. split; [reflexivity |].
  exact (C1_adjusted_pointer_and_size z80 Z bump_allocator
           tcb_unallocated (bump_world 32768) 512 TCB_FLAG_TTYPE_TASK
           _ _ Hwf eq_refl).
Defined.

(** C2, as stated, fails: on the reuse path (a region is held, the size
    matches, no allocator is called) the fill of line 148 runs again and a
    byte the thread had stored is overwritten with [0xAA]. *)
Lemma C2_reuse_refills_counterexample :
  let r := up_create_stack z80_colored 8 TCB_FLAG_TTYPE_TASK used_colored_stack in
  fst r = OK /\
  malloc_calls (new_events (snd used_colored_stack) (snd (snd r))) = [] /\
  stack_alloc_ptr (fst (snd r)) = stack_alloc_ptr (fst used_colored_stack) /\
  w_mem (snd used_colored_stack) 32772 = 18 /\
  w_mem (snd (snd r)) 32772 = 170.
Proof. cbv zeta. repeat split; reflexivity. Qed.

(** C2, amended: with stack coloration every successful call, on a fresh
    region and on the reuse path alike, leaves [0xAA] in the [stack_size]
    bytes from [stack_alloc_ptr] and every other byte as it was; a failed
    call leaves memory as it was.  On the reuse path no allocator is called
    and the region is filled again. *)
Theorem C2_fill_on_every_success
    (cfg : config) (heap : Type) (A : MemoryAllocator heap)
    (tcb : tcb_s) (w : world heap) (size : Z) (ttype : ttype_t)
    (res : status) (tcb' : tcb_s) (w' : world heap) :
  CONFIG_STACK_COLORATION cfg = true ->
  up_create_stack cfg size ttype (tcb, w) = (res, (tcb', w')) ->
  let base := stack_alloc_ptr tcb' in
  (res = OK ->
   forall a, w_mem w' a = if (base <=? a) && (a <? base + size) then 170 else w_mem w a) /\
  (res = ERROR -> forall a, w_mem w' a = w_mem w a) /\
  (stack_alloc_ptr tcb <> 0 -> adj_stack_size tcb = size ->
   res = OK /\ base = stack_alloc_ptr tcb /\
   malloc_calls (new_events w w') = [] /\
   forall a, base <= a < base + size -> w_mem w' a = 170).
Proof.
  intros Hc E base.
  assert (Hmem : (res = OK ->
    forall a, w_mem w' a = if (base <=? a) && (a <? base + size) then 170 else w_mem w a) /\
    (res = ERROR -> forall a, w_mem w' a = w_mem w a)).
  { pose proof E as E'. rewrite create_cases in E'. cbv zeta in E'. rewrite Hc in E'.
    subst base.
    destruct (negb (stack_alloc_ptr tcb =? 0) && (adj_stack_size tcb =? size));
      [| match type of E' with context [fst ?r =? 0] => destruct (fst r =? 0) end];
      inversion E'; subst res tcb' w'; cbn; split; intros; try discriminate; reflexivity. }
  destruct Hmem as (Hok & Herr). repeat split; try assumption.
  - now destruct (create_calls_reuse _ _ _ _ _ _ _ _ E H H0).
  - destruct (create_calls_reuse _ _ _ _ _ _ _ _ E H H0) as (_ & _ & Hb & _). exact Hb.
  - destruct (create_calls_reuse _ _ _ _ _ _ _ _ E H H0) as (_ & Hev & _). now rewrite Hev.
  - intros a Ha. destruct (create_calls_reuse _ _ _ _ _ _ _ _ E H H0) as (Hr & _).
    rewrite (Hok Hr a).
    destruct (Z.leb_spec base a), (Z.ltb_spec a (base + size)); cbn; try reflexivity; lia.
Qed.

Lemma C2_fill_on_every_success_witness :
  let r := up_create_stack z80_colored 8 TCB_FLAG_TTYPE_TASK used_colored_stack in
  let tcb := fst used_colored_stack in
  let w := snd used_colored_stack in
  let tcb' := fst (snd r) in
  let w' := snd (snd r) in
  CONFIG_STACK_COLORATION z80_colored = true /\
  r = (fst r, (tcb', w')) /\
  (fst r = OK ->
   forall a, w_mem w' a =
             if (32768 <=? a) && (a <? 32768 + 8) then 170 else w_mem w a) /\
  (fst r = ERROR -> forall a, w_mem w' a = w_mem w a) /\
  (stack_alloc_ptr tcb <> 0 -> adj_stack_size tcb = 8 ->
   fst r = OK /\ 32768 = stack_alloc_ptr tcb /\
   malloc_calls (new_events w w') = [] /\
   forall a, 32768 <= a < 32768 + 8 -> w_mem w' a = 170).
Proof.
  cbv zeta. split; [reflexivity |]. split; [reflexivity |].
  exact (C2_fill_on_every_success z80_colored Z bump_allocator
           (fst used_colored_stack) (snd used_colored_stack) 8 TCB_FLAG_TTYPE_TASK
           _ _ _ eq_refl eq_refl).
Defined.

(** C3, as stated, fails: after a successful call for 10 bytes the recorded
    adjusted size is 8, so a second call for the same 10 bytes frees the
    region and allocates another one. *)
Lemma C3_same_size_reallocates_counterexample :
  let s1 := after_create z80 10 in
  let r2 := up_create_stack z80 10 TCB_FLAG_TTYPE_TASK s1 in
  stack_alloc_ptr (fst s1) = 32768 /\
  adj_stack_size (fst s1) = 8 /\
  fst r2 = OK /\
  free_calls (new_events (snd s1) (snd (snd r2))) = [(UserHeap, 32768)] /\
  malloc_calls (new_events (snd s1) (snd (snd r2))) = [(UserHeap, 10, 32778)] /\
  stack_alloc_ptr (fst (snd r2)) <> stack_alloc_ptr (fst s1).
Proof. cbv zeta. repeat split; try reflexivity. vm_compute. discriminate. Qed.

(** C3, amended: when the adjusted size recorded by a successful call equals
    the size that was requested, a second call with that size succeeds, calls
    no allocator and leaves [stack_alloc_ptr] as it was.  The recorded size
    equals the requested one for a word-aligned region in the address space
    whose size is a multiple of 4, at least 4. *)
Theorem C3_reuse_when_recorded_size_matches
    (cfg : config) (heap : Type) (A : MemoryAllocator heap)
    (tcb0 : tcb_s) (w0 : world heap) (size : Z) (ttype1 ttype2 : ttype_t)
    (tcb1 : tcb_s) (w1 : world heap)
    (res : status) (tcb2 : tcb_s) (w2 : world heap) :
  wf_config cfg ->
  up_create_stack cfg size ttype1 (tcb0, w0) = (OK, (tcb1, w1)) ->
  up_create_stack cfg size ttype2 (tcb1, w1) = (res, (tcb2, w2)) ->
  (adj_stack_size tcb1 = size ->
   res = OK /\
   malloc_calls (new_events w1 w2) = [] /\
   free_calls (new_events w1 w2) = [] /\
   stack_alloc_ptr tcb2 = stack_alloc_ptr tcb1) /\
  (region_in_address_space cfg (stack_alloc_ptr tcb1) size ->
   4 <= size -> stack_alloc_ptr tcb1 mod 4 = 0 -> size mod 4 = 0 ->
   adj_stack_size tcb1 = size).
Proof.
  intros Hwf E1 E2.
  destruct (create_ok _ _ _ _ _ _ _ E1) as (Hp & Ht & Hs). split.
  - intros Hsame.
    destruct (create_calls_reuse _ _ _ _ _ _ _ _ E2 Hp Hsame) as (Hr & Hev & Hb & _).
    rewrite Hev. repeat split; assumption.
  - intros Hreg Hword Hbase Hsize. unfold region_in_address_space in Hreg.
    rewrite Hs, size_of_stack_exact, top_of_stack_exact by (assumption || lia).
    rewrite round_down4_aligned; [lia |].
    rewrite <- Z.add_sub_assoc, Z.add_mod, Hbase by lia.
    replace (size - 4) with (size + (-1) * 4) by lia.
    rewrite Z.mod_add, Hsize by lia. reflexivity.
Qed.

Lemma C3_reuse_when_recorded_size_matches_witness :
  let s1 := after_create z80 512 in
  let r2 := up_create_stack z80 512 TCB_FLAG_TTYPE_TASK s1 in
  wf_config z80 /\
  up_create_stack z80 512 TCB_FLAG_TTYPE_TASK (tcb_unallocated, bump_world 32768)
    = (OK, s1) /\
  r2 = (fst r2, snd r2) /\
  adj_stack_size (fst s1) = 512 /\
  region_in_address_space z80 (stack_alloc_ptr (fst s1)) 512 /\
  4 <= 512 /\ stack_alloc_ptr (fst s1) mod 4 = 0 /\ 512 mod 4 = 0 /\
  fst r2 = OK /\
  malloc_calls (new_events (snd s1) (snd (snd r2))) = [] /\
  free_calls (new_events (snd s1) (snd (snd r2))) = [] /\
  stack_alloc_ptr (fst (snd r2)) = stack_alloc_ptr (fst s1).
Proof.
  cbv zeta.
  assert (Hwf : wf_config z80) by (unfold wf_config; cbn; lia).
  assert (Hreg : region_in_address_space z80
                   (stack_alloc_ptr (fst (after_create z80 512))) 512)
    by (unfold region_in_address_space; vm_compute; repeat split; discriminate).
  pose proof (C3_reuse_when_recorded_size_matches z80 Z bump_allocator
                tcb_unallocated (bump_world 32768) 512
                TCB_FLAG_TTYPE_TASK TCB_FLAG_TTYPE_TASK
                (fst (after_create z80 512)) (snd (after_create z80 512))
                _ _ _ Hwf eq_refl eq_refl) as (Hreuse & Hsame).
  assert (Hrec : adj_stack_size (fst (after_create z80 512)) = 512)
    by (apply Hsame; [exact Hreg | lia | reflexivity | reflexivity]).
  split; [exact Hwf |]. split; [reflexivity |]. split; [reflexivity |].
  split; [exact Hrec |]. split; [exact Hreg |].
  split; [lia |]. split; [reflexivity |]. split; [reflexivity |].
  exact (Hreuse Hrec).
Defined.

(** * Regions of at least two words, and regions of less than one *)

Section Bounds.
Variable cfg : config.
Hypothesis Hwf : wf_config cfg.

(** From 8 bytes on, the adjusted pointer and the word it addresses lie in
    the region and the adjusted size spans from the base to that word. *)
Lemma adjusted_in_region p n :
  region_in_address_space cfg p n -> 4 <= n ->
  p + n - 7 <= top_of_stack cfg p n <= p + n - 4 /\
  top_of_stack cfg p n mod 4 = 0 /\
  size_of_stack cfg p n = top_of_stack cfg p n - p + 4.
Proof.
  intros (Hp & Hn & Hend) Hword.
  rewrite size_of_stack_exact, top_of_stack_exact by (assumption || lia).
  pose proof (round_down4_bounds (p + n - 4)).
  repeat split; try lia. apply round_down4_multiple.
Qed.

(** Less than a word at a word-aligned base: the sum of line 158 falls
    short of the base by a whole word and nothing is left. *)
Lemma sub_word_aligned p n :
  region_in_address_space cfg p n -> n < 4 -> p mod 4 = 0 ->
  top_of_stack cfg p n = p - 4 /\ size_of_stack cfg p n = 0.
Proof.
  intros (Hp & Hn & Hend) Hsub Hal.
  pose proof (pow_size_bits_pos cfg Hwf) as Hpow.
  assert (Hp4 : 4 <= p).
  { pose proof (Z.div_mod p 4 ltac:(lia)). lia. }
  assert (Ht : top_of_stack cfg p n = p - 4).
  { rewrite top_of_stack_exact by (assumption || lia).
    unfold round_down4.
    pose proof (Z.div_mod p 4 ltac:(lia)).
    pose proof (Z.div_mod (p + n - 4) 4 ltac:(lia)).
    pose proof (Z.mod_pos_bound (p + n - 4) 4 ltac:(lia)). lia. }
  split; [exact Ht |].
  rewrite size_of_stack_eq, Ht by assumption.
  replace (p - 4 - p + 4) with 0 by lia. apply to_size_t_small. lia.
Qed.

End Bounds.

(** C4, as stated, fails: the adjusted pointer is the top word of a stack
    that grows down, so the [adjusted_size] bytes counted upward from it run
    past the end of the region.  For 512 bytes at [0x8000] they reach
    [0x83FC]; the region ends at [0x8200]. *)
Lemma C4_upward_region_counterexample :
  let tcb' := fst (after_create z80 512) in
  stack_alloc_ptr tcb' = 32768 /\
  adj_stack_ptr tcb' = 33276 /\
  adj_stack_size tcb' = 512 /\
  ~ (forall a, adj_stack_ptr tcb' <= a < adj_stack_ptr tcb' + adj_stack_size tcb' ->
               stack_alloc_ptr tcb' <= a < stack_alloc_ptr tcb' + 512).
Proof.
  cbv zeta. repeat split; try reflexivity.
  intros Hin. specialize (Hin 33280).
  change (33276 <= 33280 < 33276 + 512 -> 32768 <= 33280 < 32768 + 512) in Hin.
  lia.
Qed.

(** C4, amended: for a region of at least 8 bytes in the address space, the
    [adjusted_size] bytes that end one word above the adjusted pointer,
    [adj_stack_ptr + 4 - adj_stack_size, adj_stack_ptr + 4), start at
    [stack_alloc_ptr] and lie in the region; so does the word the adjusted
    pointer addresses, and the pointer is a multiple of 4. *)
Theorem C4_adjusted_region_within_allocation
    (cfg : config) (heap : Type) (A : MemoryAllocator heap)
    (tcb : tcb_s) (w : world heap) (size : Z) (ttype : ttype_t)
    (tcb' : tcb_s) (w' : world heap) :
  wf_config cfg ->
  up_create_stack cfg size ttype (tcb, w) = (OK, (tcb', w')) ->
  let base := stack_alloc_ptr tcb' in
  region_in_address_space cfg base size ->
  8 <= size ->
  (forall a, adj_stack_ptr tcb' + 4 - adj_stack_size tcb' <= a < adj_stack_ptr tcb' + 4 ->
             base <= a < base + size) /\
  adj_stack_ptr tcb' + 4 - adj_stack_size tcb' = base /\
  base <= adj_stack_ptr tcb' /\ adj_stack_ptr tcb' + 4 <= base + size /\
  adj_stack_ptr tcb' mod 4 = 0.
Proof.
  intros Hwf E base Hreg Hmin.
  destruct (create_ok _ _ _ _ _ _ _ E) as (_ & Ht & Hs). fold base in Ht, Hs.
  destruct (adjusted_in_region cfg Hwf base size Hreg ltac:(lia)) as (Hb & Hal & Hsz).
  rewrite Hs, Ht, Hsz. repeat split; try lia; exact Hal.
Qed.

Lemma C4_adjusted_region_within_allocation_witness :
  let r := up_create_stack z80 512 TCB_FLAG_TTYPE_TASK
             (tcb_unallocated, bump_world 32768) in
  let tcb' := fst (snd r) in
  wf_config z80 /\
  r = (OK, (tcb', snd (snd r))) /\
  region_in_address_space z80 32768 512 /\
  8 <= 512 /\
  (forall a, adj_stack_ptr tcb' + 4 - adj_stack_size tcb' <= a < adj_stack_ptr tcb' + 4 ->
             32768 <= a < 32768 + 512) /\
  adj_stack_ptr tcb' + 4 - adj_stack_size tcb' = 32768 /\
  32768 <= adj_stack_ptr tcb' /\ adj_stack_ptr tcb' + 4 <= 32768 + 512 /\
  adj_stack_ptr tcb' mod 4 = 0.
Proof.
  cbv zeta.
  assert (Hwf : wf_config z80) by (unfold wf_config; cbn; lia).
  assert (Hreg : region_in_address_space z80 32768 512)
    by (unfold region_in_address_space; cbn; lia).
  split; [exact Hwf |]. split; [reflexivity |]. split; [exact Hreg |].
  split; [lia |].
  exact (C4_adjusted_region_within_allocation z80 Z bump_allocator
           tcb_unallocated (bump_world 32768) 512 TCB_FLAG_TTYPE_TASK
           _ _ Hwf eq_refl Hreg ltac:(lia)).
Defined.

(** C5, as stated, fails in its second part: after a successful call for 10
    bytes the recorded adjusted size is 8, so a call for 8 bytes, a size
    other than 10, releases nothing and allocates nothing. *)
Lemma C5_other_size_reused_counterexample :
  let s1 := after_create z80 10 in
  let r2 := up_create_stack z80 8 TCB_FLAG_TTYPE_TASK s1 in
  8 <> 10 /\
  adj_stack_size (fst s1) = 8 /\
  fst r2 = OK /\
  free_calls (new_events (snd s1) (snd (snd r2))) = [] /\
  malloc_calls (new_events (snd s1) (snd (snd r2))) = [] /\
  stack_alloc_ptr (fst (snd r2)) = stack_alloc_ptr (fst s1).
Proof. cbv zeta. repeat split; try reflexivity. discriminate. Qed.

(** C5, amended: a call releases the region the descriptor holds, as its
    first call and before its one allocation, exactly when a region is held
    and the recorded adjusted size differs from the size asked for; otherwise
    it releases nothing.  A successful call followed by a call whose size
    differs from the adjusted size the first one recorded releases the first
    region once and makes one allocation call, for the second size. *)
Theorem C5_release_on_recorded_size_mismatch
    (cfg : config) (heap : Type) (A : MemoryAllocator heap)
    (tcb0 : tcb_s) (w0 : world heap) (S1 S2 : Z) (ttype1 ttype2 : ttype_t)
    (res1 : status) (tcb1 : tcb_s) (w1 : world heap)
    (res2 : status) (tcb2 : tcb_s) (w2 : world heap) :
  up_create_stack cfg S1 ttype1 (tcb0, w0) = (res1, (tcb1, w1)) ->
  up_create_stack cfg S2 ttype2 (tcb1, w1) = (res2, (tcb2, w2)) ->
  (stack_alloc_ptr tcb0 <> 0 /\ adj_stack_size tcb0 <> S1 ->
   exists d r tail,
     new_events w0 w1 = EvFree d (stack_alloc_ptr tcb0) :: EvMalloc d S1 r :: tail /\
     malloc_calls tail = [] /\ free_calls tail = []) /\
  (~ (stack_alloc_ptr tcb0 <> 0 /\ adj_stack_size tcb0 <> S1) ->
   free_calls (new_events w0 w1) = []) /\
  (res1 = OK -> S2 <> adj_stack_size tcb1 ->
   exists d r,
     free_calls (new_events w1 w2) = [(d, stack_alloc_ptr tcb1)] /\
     malloc_calls (new_events w1 w2) = [(d, S2, r)]).
Proof.
  intros E1 E2.
  assert (Hrel : forall tcb (w : world heap) size ttype res tcb' (w' : world heap),
    up_create_stack cfg size ttype (tcb, w) = (res, (tcb', w')) ->
    stack_alloc_ptr tcb <> 0 -> adj_stack_size tcb <> size ->
    exists d r tail,
      new_events w w' = EvFree d (stack_alloc_ptr tcb) :: EvMalloc d size r :: tail /\
      malloc_calls tail = [] /\ free_calls tail = []).
  { intros tcb w size ttype res tcb' w' E Hp Hs.
    destruct (create_calls_alloc _ _ _ _ _ _ _ _ E (or_intror Hs))
      as (tail & Hev & Hm & Hf & _).
    unfold must_release in Hev.
    apply Z.eqb_neq in Hp, Hs. rewrite Hp, Hs in Hev. cbn in Hev.
    eauto 6. }
  split; [| split].
  - intros (Hp & Hs). eapply Hrel; eassumption.
  - intros Hno.
    destruct (Z.eq_dec (stack_alloc_ptr tcb0) 0) as [Hp | Hp].
    + destruct (create_calls_alloc _ _ _ _ _ _ _ _ E1 (or_introl Hp))
        as (tail & Hev & _ & Hf & _).
      unfold must_release in Hev. rewrite Hp in Hev. cbn in Hev.
      rewrite Hev. cbn. exact Hf.
    + destruct (Z.eq_dec (adj_stack_size tcb0) S1) as [Hs | Hs]; [| tauto].
      destruct (create_calls_reuse _ _ _ _ _ _ _ _ E1 Hp Hs) as (_ & Hev & _).
      rewrite Hev. reflexivity.
  - intros Hok Hdiff. subst res1.
    destruct (create_ok _ _ _ _ _ _ _ E1) as (Hp & _).
    destruct (Hrel _ _ _ _ _ _ _ E2 Hp (not_eq_sym Hdiff))
      as (d & r & tail & Hev & Hm & Hf).
    exists d, r. rewrite Hev. cbn. rewrite Hm, Hf. split; reflexivity.
Qed.

Lemma C5_release_on_recorded_size_mismatch_witness :
  let s1 := after_create z80 512 in
  let r2 := up_create_stack z80 1024 TCB_FLAG_TTYPE_TASK s1 in
  up_create_stack z80 512 TCB_FLAG_TTYPE_TASK (tcb_unallocated, bump_world 32768)
    = (OK, s1) /\
  r2 = (fst r2, snd r2) /\
  1024 <> adj_stack_size (fst s1) /\
  exists d r,
    free_calls (new_events (snd s1) (snd (snd r2))) = [(d, stack_alloc_ptr (fst s1))] /\
    malloc_calls (new_events (snd s1) (snd (snd r2))) = [(d, 1024, r)].
Proof.
  cbv zeta.
  assert (Hdiff : 1024 <> adj_stack_size (fst (after_create z80 512)))
    by (vm_compute; discriminate).
  split; [reflexivity |]. split; [reflexivity |]. split; [exact Hdiff |].
  destruct (C5_release_on_recorded_size_mismatch z80 Z bump_allocator
              tcb_unallocated (bump_world 32768) 512 1024
              TCB_FLAG_TTYPE_TASK TCB_FLAG_TTYPE_TASK
              OK (fst (after_create z80 512)) (snd (after_create z80 512))
              _ _ _ eq_refl eq_refl) as (_ & _ & Hsecond).
  exact (Hsecond eq_refl Hdiff).
Defined.

(** The one allocation of a call that does not reuse its region. *)
Lemma create_malloc_calls
    (cfg : config) (heap : Type) (A : MemoryAllocator heap)
    (tcb : tcb_s) (w : world heap) (size : Z) (ttype : ttype_t)
    (res : status) (tcb' : tcb_s) (w' : world heap) :
  up_create_stack cfg size ttype (tcb, w) = (res, (tcb', w')) ->
  stack_alloc_ptr tcb = 0 \/ adj_stack_size tcb <> size ->
  malloc_calls (new_events w w') =
    [(select_domain cfg ttype, size, stack_alloc_ptr tcb')] /\
  free_calls (new_events w w') =
    (if must_release tcb size
     then [(select_domain cfg ttype, stack_alloc_ptr tcb)] else []) /\
  (res = ERROR <-> stack_alloc_ptr tcb' = 0).
Proof.
  intros E Hc.
  destruct (create_calls_alloc _ _ _ _ _ _ _ _ E Hc) as (tail & Hev & Hm & Hf & Hr).
  rewrite Hev, malloc_calls_app, free_calls_app. cbn. rewrite Hm, Hf.
  destruct (must_release tcb size); cbn; auto.
Qed.

Lemma select_domain_kernel cfg ttype :
  select_domain cfg ttype = KernelHeap <->
  ttype = TCB_FLAG_TTYPE_KERNEL /\ CONFIG_MM_KERNEL_HEAP cfg = true.
Proof.
  unfold select_domain.
  destruct ttype, (CONFIG_MM_KERNEL_HEAP cfg); cbn; intuition discriminate.
Qed.

(** C6: when the allocator returns no memory the call returns [ERROR] and
    leaves no region in the descriptor, also when it first released a region
    of another recorded size; and [ERROR] is returned for no other reason. *)
Theorem C6_out_of_memory_leaves_unallocated
    (cfg : config) (heap : Type) (A : MemoryAllocator heap)
    (tcb : tcb_s) (w : world heap) (size : Z) (ttype : ttype_t)
    (res : status) (tcb' : tcb_s) (w' : world heap) :
  up_create_stack cfg size ttype (tcb, w) = (res, (tcb', w')) ->
  ((exists d n, In (EvMalloc d n 0) (new_events w w')) ->
   res = ERROR /\ stack_alloc_ptr tcb' = 0) /\
  (res = ERROR -> exists d, In (EvMalloc d size 0) (new_events w w')) /\
  (res = ERROR -> stack_alloc_ptr tcb <> 0 ->
   exists d, free_calls (new_events w w') = [(d, stack_alloc_ptr tcb)] /\
             stack_alloc_ptr tcb' = 0).
Proof.
  intros E.
  destruct (Z.eq_dec (stack_alloc_ptr tcb) 0) as [Hp | Hp];
    [| destruct (Z.eq_dec (adj_stack_size tcb) size) as [Hs | Hs]].
  - destruct (create_malloc_calls _ _ _ _ _ _ _ _ _ _ E (or_introl Hp))
      as (Hm & _ & Hr).
    repeat split.
    + destruct H as (d & n & HIn). apply malloc_calls_In in HIn.
      rewrite Hm in HIn. destruct HIn as [Heq | []]. inversion Heq. tauto.
    + destruct H as (d & n & HIn). apply malloc_calls_In in HIn.
      rewrite Hm in HIn. destruct HIn as [Heq | []]. inversion Heq. reflexivity.
    + intros Herr. exists (select_domain cfg ttype). apply malloc_calls_In.
      rewrite Hm. apply Hr in Herr. rewrite Herr. left. reflexivity.
    + intros _ Hnz. contradiction.
  - destruct (create_calls_reuse _ _ _ _ _ _ _ _ E Hp Hs) as (Hok & Hev & _).
    rewrite Hev. subst res. repeat split; try discriminate.
    + destruct H as (d & n & [Heq | []]). discriminate.
    + destruct H as (d & n & [Heq | []]). discriminate.
  - destruct (create_malloc_calls _ _ _ _ _ _ _ _ _ _ E (or_intror Hs))
      as (Hm & Hf & Hr).
    repeat split.
    + destruct H as (d & n & HIn). apply malloc_calls_In in HIn.
      rewrite Hm in HIn. destruct HIn as [Heq | []]. inversion Heq. tauto.
    + destruct H as (d & n & HIn). apply malloc_calls_In in HIn.
      rewrite Hm in HIn. destruct HIn as [Heq | []]. inversion Heq. reflexivity.
    + intros Herr. exists (select_domain cfg ttype). apply malloc_calls_In.
      rewrite Hm. apply Hr in Herr. rewrite Herr. left. reflexivity.
    + intros Herr _. exists (select_domain cfg ttype). split; [| tauto].
      rewrite Hf. unfold must_release.
      apply Z.eqb_neq in Hp, Hs. rewrite Hp, Hs. reflexivity.
Qed.

Lemma C6_out_of_memory_leaves_unallocated_witness :
  let s1 := after_create z80_kernel 512 in
  let r2 := up_create_stack z80_kernel 40000 TCB_FLAG_TTYPE_KERNEL s1 in
  r2 = (fst r2, snd r2) /\
  (exists d n, In (EvMalloc d n 0) (new_events (snd s1) (snd (snd r2)))) /\
  stack_alloc_ptr (fst s1) <> 0 /\
  fst r2 = ERROR /\
  stack_alloc_ptr (fst (snd r2)) = 0 /\
  exists d, free_calls (new_events (snd s1) (snd (snd r2)))
              = [(d, stack_alloc_ptr (fst s1))] /\
            stack_alloc_ptr (fst (snd r2)) = 0.
Proof.
  cbv zeta.
  assert (Hfail : exists d n, In (EvMalloc d n 0)
            (new_events (snd (after_create z80_kernel 512))
               (snd (snd (up_create_stack z80_kernel 40000 TCB_FLAG_TTYPE_KERNEL
                            (after_create z80_kernel 512))))))
    by (exists KernelHeap, 40000; vm_compute; auto).
  assert (Hheld : stack_alloc_ptr (fst (after_create z80_kernel 512)) <> 0)
    by (vm_compute; discriminate).
  destruct (C6_out_of_memory_leaves_unallocated z80_kernel Z bump_allocator
              (fst (after_create z80_kernel 512)) (snd (after_create z80_kernel 512))
              40000 TCB_FLAG_TTYPE_KERNEL _ _ _ eq_refl)
    as (Hoom & _ & Hrel).
  destruct (Hoom Hfail) as (Herr & Hnull).
  split; [reflexivity |]. split; [exact Hfail |]. split; [exact Hheld |].
  split; [exact Herr |]. split; [exact Hnull |].
  exact (Hrel Herr Hheld).
Defined.

(** C7: every allocation a call makes is for [stack_size] bytes and comes
    from the kernel heap exactly when the thread is a kernel thread and the
    build has a kernel heap, from the user heap in every other case; and a
    call that needs a region makes exactly one allocation. *)
Theorem C7_allocation_domain
    (cfg : config) (heap : Type) (A : MemoryAllocator heap)
    (tcb : tcb_s) (w : world heap) (size : Z) (ttype : ttype_t)
    (res : status) (tcb' : tcb_s) (w' : world heap) :
  up_create_stack cfg size ttype (tcb, w) = (res, (tcb', w')) ->
  (forall d n r, In (EvMalloc d n r) (new_events w w') ->
     n = size /\
     (d = KernelHeap <->
      ttype = TCB_FLAG_TTYPE_KERNEL /\ CONFIG_MM_KERNEL_HEAP cfg = true) /\
     (d = UserHeap <->
      ~ (ttype = TCB_FLAG_TTYPE_KERNEL /\ CONFIG_MM_KERNEL_HEAP cfg = true))) /\
  (stack_alloc_ptr tcb = 0 \/ adj_stack_size tcb <> size ->
   exists d r, malloc_calls (new_events w w') = [(d, size, r)]).
Proof.
  intros E. split.
  - intros d n r HIn. apply malloc_calls_In in HIn.
    assert (Hd : n = size /\ d = select_domain cfg ttype).
    { destruct (Z.eq_dec (stack_alloc_ptr tcb) 0) as [Hp | Hp];
        [| destruct (Z.eq_dec (adj_stack_size tcb) size) as [Hs | Hs]].
      - destruct (create_malloc_calls _ _ _ _ _ _ _ _ _ _ E (or_introl Hp)) as (Hm & _).
        rewrite Hm in HIn. destruct HIn as [Heq | []]. inversion Heq. auto.
      - destruct (create_calls_reuse _ _ _ _ _ _ _ _ E Hp Hs) as (_ & Hev & _).
        rewrite Hev in HIn. destruct HIn.
      - destruct (create_malloc_calls _ _ _ _ _ _ _ _ _ _ E (or_intror Hs)) as (Hm & _).
        rewrite Hm in HIn. destruct HIn as [Heq | []]. inversion Heq. auto. }
    destruct Hd as (-> & ->). split; [reflexivity |].
    pose proof (select_domain_kernel cfg ttype) as Hk.
    split; [exact Hk |].
    destruct (select_domain cfg ttype); split; intros Hx;
      try reflexivity; try discriminate.
    + exfalso. apply Hx. apply Hk. reflexivity.
    + intros Hy. apply Hk in Hy. discriminate.
  - intros Hc.
    destruct (create_malloc_calls _ _ _ _ _ _ _ _ _ _ E Hc) as (Hm & _). eauto.
Qed.

Lemma C7_allocation_domain_witness :
  let r := up_create_stack z80_kernel 256 TCB_FLAG_TTYPE_KERNEL
             (tcb_unallocated, bump_world 32768) in
  r = (fst r, snd r) /\
  In (EvMalloc KernelHeap 256 32768)
     (new_events (bump_world 32768) (snd (snd r))) /\
  (KernelHeap = KernelHeap <->
   TCB_FLAG_TTYPE_KERNEL = TCB_FLAG_TTYPE_KERNEL /\
   CONFIG_MM_KERNEL_HEAP z80_kernel = true) /\
  exists d r', malloc_calls (new_events (bump_world 32768) (snd (snd r)))
               = [(d, 256, r')].
Proof.
  cbv zeta.
  destruct (C7_allocation_domain z80_kernel Z bump_allocator
              tcb_unallocated (bump_world 32768) 256 TCB_FLAG_TTYPE_KERNEL
              _ _ _ eq_refl) as (Hdom & Hone).
  assert (HIn : In (EvMalloc KernelHeap 256 32768)
            (new_events (bump_world 32768)
               (snd (snd (up_create_stack z80_kernel 256 TCB_FLAG_TTYPE_KERNEL
                            (tcb_unallocated, bump_world 32768))))))
    by (vm_compute; auto).
  split; [reflexivity |]. split; [exact HIn |].
  split; [exact (proj1 (proj2 (Hdom _ _ _ HIn))) |].
  exact (Hone (or_introl eq_refl)).
Defined.

(** C8, as stated, fails: the requested size is not stored.  Calls for 9 and
    for 10 bytes leave the same descriptor, so nothing read from it tells
    the two requests apart; and the size compared on the next call is the
    recorded adjusted size, 8, so that asking for 10 bytes again releases
    the region. *)
Lemma C8_requested_size_not_retained_counterexample :
  let s9 := after_create z80 9 in
  let s10 := after_create z80 10 in
  let r := up_create_stack z80 10 TCB_FLAG_TTYPE_TASK s10 in
  fst (up_create_stack z80 9 TCB_FLAG_TTYPE_TASK (tcb_unallocated, bump_world 32768)) = OK /\
  fst (up_create_stack z80 10 TCB_FLAG_TTYPE_TASK (tcb_unallocated, bump_world 32768)) = OK /\
  fst s9 = fst s10 /\
  (forall requested_size : tcb_s -> Z,
     ~ (requested_size (fst s9) = 9 /\ requested_size (fst s10) = 10)) /\
  fst s10 = {| stack_alloc_ptr := 32768; adj_stack_ptr := 32772; adj_stack_size := 8 |} /\
  free_calls (new_events (snd s10) (snd (snd r))) = [(UserHeap, 32768)].
Proof.
  cbv zeta. repeat split; try reflexivity.
  intros f (H9 & H10).
  change (fst (after_create z80 10)) with (fst (after_create z80 9)) in H10.
  rewrite H9 in H10. discriminate.
Qed.

(** C8, amended: after a successful call the descriptor holds the region,
    the adjusted pointer and the adjusted size computed from the requested
    size, and nothing else.  On the next call the recorded adjusted size is
    what the new size is compared with: the region is kept, with no call to
    an allocator, exactly when the new size equals it. *)
Theorem C8_recorded_adjusted_size_is_compared
    (cfg : config) (heap : Type) (A : MemoryAllocator heap)
    (tcb0 : tcb_s) (w0 : world heap) (size1 size2 : Z) (ttype1 ttype2 : ttype_t)
    (tcb1 : tcb_s) (w1 : world heap)
    (res : status) (tcb2 : tcb_s) (w2 : world heap) :
  up_create_stack cfg size1 ttype1 (tcb0, w0) = (OK, (tcb1, w1)) ->
  up_create_stack cfg size2 ttype2 (tcb1, w1) = (res, (tcb2, w2)) ->
  tcb1 = {| stack_alloc_ptr := stack_alloc_ptr tcb1;
            adj_stack_ptr := top_of_stack cfg (stack_alloc_ptr tcb1) size1;
            adj_stack_size := size_of_stack cfg (stack_alloc_ptr tcb1) size1 |} /\
  (size2 = adj_stack_size tcb1 <->
   free_calls (new_events w1 w2) = [] /\ malloc_calls (new_events w1 w2) = []) /\
  (size2 = adj_stack_size tcb1 ->
   res = OK /\ stack_alloc_ptr tcb2 = stack_alloc_ptr tcb1).
Proof.
  intros E1 E2.
  destruct (create_result _ _ _ _ _ _ _ _ E1) as [(_ & Hp & Ht) | (Hr & _)];
    [| discriminate].
  split; [exact Ht |]. split; [split |].
  - intros Hsame.
    destruct (create_calls_reuse _ _ _ _ _ _ _ _ E2 Hp (eq_sym Hsame)) as (_ & Hev & _).
    rewrite Hev. split; reflexivity.
  - intros (_ & Hm).
    destruct (Z.eq_dec size2 (adj_stack_size tcb1)) as [Hs | Hs]; [exact Hs |].
    destruct (create_malloc_calls _ _ _ _ _ _ _ _ _ _ E2 (or_intror (not_eq_sym Hs)))
      as (Hm' & _).
    rewrite Hm' in Hm. discriminate.
  - intros Hsame.
    destruct (create_calls_reuse _ _ _ _ _ _ _ _ E2 Hp (eq_sym Hsame)) as (Hr & _ & Hb & _).
    split; assumption.
Qed.

Lemma C8_recorded_adjusted_size_is_compared_witness :
  let s1 := after_create z80 10 in
  let r2 := up_create_stack z80 8 TCB_FLAG_TTYPE_TASK s1 in
  up_create_stack z80 10 TCB_FLAG_TTYPE_TASK (tcb_unallocated, bump_world 32768)
    = (OK, s1) /\
  r2 = (fst r2, snd r2) /\
  8 = adj_stack_size (fst s1) /\
  free_calls (new_events (snd s1) (snd (snd r2))) = [] /\
  malloc_calls (new_events (snd s1) (snd (snd r2))) = [] /\
  fst r2 = OK /\
  stack_alloc_ptr (fst (snd r2)) = stack_alloc_ptr (fst s1).
Proof.
  cbv zeta.
  destruct (C8_recorded_adjusted_size_is_compared z80 Z bump_allocator
              tcb_unallocated (bump_world 32768) 10 8
              TCB_FLAG_TTYPE_TASK TCB_FLAG_TTYPE_TASK
              (fst (after_create z80 10)) (snd (after_create z80 10))
              _ _ _ eq_refl eq_refl) as (_ & Hiff & Hkeep).
  assert (Hsame : 8 = adj_stack_size (fst (after_create z80 10))) by reflexivity.
  split; [reflexivity |]. split; [reflexivity |]. split; [exact Hsame |].
  split; [exact (proj1 (proj1 Hiff Hsame)) |].
  split; [exact (proj2 (proj1 Hiff Hsame)) |].
  exact (Hkeep Hsame).
Defined.

(** C9, as stated, fails in its first part: for 1 byte at the odd address
    [0x8001] the call succeeds and the difference of line 165 is [-1], stored
    as the [size_t] 65535, which exceeds the size requested. *)
Lemma C9_adjusted_size_exceeds_counterexample :
  let r := up_create_stack z80 1 TCB_FLAG_TTYPE_TASK
             (tcb_unallocated, bump_world 32769) in
  fst r = OK /\
  stack_alloc_ptr (fst (snd r)) = 32769 /\
  adj_stack_ptr (fst (snd r)) = 32764 /\
  adj_stack_size (fst (snd r)) = 65535 /\
  ~ (adj_stack_size (fst (snd r)) <= 1).
Proof. cbv zeta. repeat split; try reflexivity. vm_compute. intros Hle. now apply Hle. Qed.

(** C9, amended: for a successful call on a region in the address space
    whose size is at least one word, or whose base is word-aligned, the
    adjusted size never exceeds the requested size; and from 8 bytes on it
    is strictly positive. *)
Theorem C9_adjusted_size_bounds
    (cfg : config) (heap : Type) (A : MemoryAllocator heap)
    (tcb : tcb_s) (w : world heap) (size : Z) (ttype : ttype_t)
    (tcb' : tcb_s) (w' : world heap) :
  wf_config cfg ->
  up_create_stack cfg size ttype (tcb, w) = (OK, (tcb', w')) ->
  let base := stack_alloc_ptr tcb' in
  region_in_address_space cfg base size ->
  (4 <= size \/ base mod 4 = 0 -> adj_stack_size tcb' <= size) /\
  (8 <= size -> 0 < adj_stack_size tcb').
Proof.
  intros Hwf E base Hreg.
  destruct (create_ok _ _ _ _ _ _ _ E) as (_ & Ht & Hs). fold base in Ht, Hs.
  assert (Hword : 4 <= size -> size - 3 <= adj_stack_size tcb' <= size).
  { intros H4.
    destruct (adjusted_in_region cfg Hwf base size Hreg H4) as (Hb & _ & Hsz).
    rewrite Hs, Hsz. lia. }
  split.
  - intros [H4 | Hal].
    + apply Hword, H4.
    + destruct (Z_le_dec 4 size) as [H4 | Hsub]; [apply Hword, H4 |].
      destruct (sub_word_aligned cfg Hwf base size Hreg ltac:(lia) Hal) as (_ & Hz).
      rewrite Hs, Hz. unfold region_in_address_space in Hreg. lia.
  - intros H8. specialize (Hword ltac:(lia)). lia.
Qed.

Lemma C9_adjusted_size_bounds_witness :
  let r := up_create_stack z80 8 TCB_FLAG_TTYPE_TASK
             (tcb_unallocated, bump_world 32769) in
  let tcb' := fst (snd r) in
  wf_config z80 /\
  r = (OK, (tcb', snd (snd r))) /\
  region_in_address_space z80 32769 8 /\
  4 <= 8 /\ 8 <= 8 /\
  adj_stack_size tcb' <= 8 /\ 0 < adj_stack_size tcb'.
Proof.
  cbv zeta.
  assert (Hwf : wf_config z80) by (unfold wf_config; cbn; lia).
  assert (Hreg : region_in_address_space z80 32769 8)
    by (unfold region_in_address_space; cbn; lia).
  destruct (C9_adjusted_size_bounds z80 Z bump_allocator
              tcb_unallocated (bump_world 32769) 8 TCB_FLAG_TTYPE_TASK
              _ _ Hwf eq_refl Hreg) as (Hle & Hpos).
  split; [exact Hwf |]. split; [reflexivity |]. split; [exact Hreg |].
  assert (H4 : 4 <= 8) by lia.
  assert (H8 : 8 <= 8) by lia.
  split; [exact H4 |]. split; [exact H8 |].
  split; [exact (Hle (or_introl H4)) | exact (Hpos H8)].
Defined.



(** * Further properties of [up_create_stack] *)

Section Further.
Variable cfg : config.
Context {heap : Type} `{MemoryAllocator heap}.

(** The whole sequence of calls a call makes: at most one free, at most one
    allocation, then the LED hook on success or, in a debug build, the
    message on failure. *)
Lemma create_events tcb (w : world heap) size ttype res tcb' w' :
  up_create_stack cfg size ttype (tcb, w) = (res, (tcb', w')) ->
  new_events w w' =
    (if must_release tcb size
     then [EvFree (select_domain cfg ttype) (stack_alloc_ptr tcb)] else []) ++
    (if negb (stack_alloc_ptr tcb =? 0) && (adj_stack_size tcb =? size)
     then []
     else [EvMalloc (select_domain cfg ttype) size (stack_alloc_ptr tcb')]) ++
    match res with
    | OK => [EvAutoledOn (LED_STACKCREATED cfg)]
    | ERROR => if CONFIG_DEBUG_FEATURES cfg then [EvSerr size] else []
    end.
Proof.
  intros E.
  destruct (Z.eq_dec (stack_alloc_ptr tcb) 0) as [Hp | Hp];
    [| destruct (Z.eq_dec (adj_stack_size tcb) size) as [Hs | Hs]].
  - rewrite create_fresh in E by assumption. cbv zeta in E.
    unfold must_release. rewrite Hp. cbn [Z.eqb negb andb app].
    match type of E with context [fst ?r =? 0] =>
      destruct (Z.eqb_spec (fst r) 0) as [Hz | Hz] end;
      inversion E; subst res tcb' w'; apply new_events_app; reflexivity.
  - rewrite create_reuse in E by assumption.
    inversion E; subst res tcb' w'.
    unfold must_release. apply Z.eqb_neq in Hp. apply Z.eqb_eq in Hs.
    rewrite Hp, Hs. cbn [negb andb app]. apply new_events_app. reflexivity.
  - rewrite create_cases in E. cbv zeta in E.
    unfold must_release in *. apply Z.eqb_neq in Hp, Hs.
    rewrite Hp, Hs in *. cbn [negb andb app] in *.
    match type of E with context [fst ?r =? 0] =>
      destruct (Z.eqb_spec (fst r) 0) as [Hz | Hz] end;
      inversion E; subst res tcb' w'; apply new_events_app; reflexivity.
Qed.

(** To ask again for the recorded adjusted size changes neither adjusted
    field. *)
Lemma adjusted_fixed_point (Hwf : wf_config cfg) p n :
  adjusted cfg p (size_of_stack cfg p n) = adjusted cfg p n.
Proof.
  assert (Ht : top_of_stack cfg p (size_of_stack cfg p n) = top_of_stack cfg p n).
  { rewrite (top_of_stack_eq cfg Hwf p (size_of_stack cfg p n)).
    rewrite size_of_stack_eq by assumption.
    replace (p + to_size_t cfg (top_of_stack cfg p n - p + 4) - 4)
      with (to_size_t cfg (top_of_stack cfg p n - p + 4) + (p - 4)) by lia.
    unfold to_size_t at 1, wrap.
    unfold to_size_t at 1, wrap. rewrite Zplus_mod_idemp_l.
    replace (top_of_stack cfg p n - p + 4 + (p - 4)) with (top_of_stack cfg p n) by lia.
    fold (wrap (size_bits cfg) (top_of_stack cfg p n)).
    fold (to_size_t cfg (top_of_stack cfg p n)).
    rewrite top_of_stack_eq by assumption.
    pose proof (to_size_t_range cfg Hwf (p + n - 4)) as Hr.
    pose proof (round_down4_bounds (to_size_t cfg (p + n - 4))) as Hb.
    assert (0 <= round_down4 (to_size_t cfg (p + n - 4))).
    { unfold round_down4. pose proof (Z.div_pos (to_size_t cfg (p + n - 4)) 4). lia. }
    rewrite to_size_t_small by (assumption || lia).
    apply round_down4_aligned, round_down4_multiple. }
  unfold adjusted. f_equal; [exact Ht |].
  rewrite (size_of_stack_eq cfg Hwf p (size_of_stack cfg p n)), Ht.
  symmetry. now apply size_of_stack_eq.
Qed.
End Further.

(** X1: after every successful call the adjusted stack pointer is a multiple
    of 4 and both adjusted fields are [size_t] values, whatever the region
    and the size. *)
Theorem X1_adjusted_pointer_aligned
    (cfg : config) (heap : Type) (A : MemoryAllocator heap)
    (tcb : tcb_s) (w : world heap) (size : Z) (ttype : ttype_t)
    (tcb' : tcb_s) (w' : world heap) :
  wf_config cfg ->
  up_create_stack cfg size ttype (tcb, w) = (OK, (tcb', w')) ->
  adj_stack_ptr tcb' mod 4 = 0 /\
  0 <= adj_stack_ptr tcb' < 2 ^ size_bits cfg /\
  0 <= adj_stack_size tcb' < 2 ^ size_bits cfg.
Proof.
  intros Hwf E. destruct (create_ok _ _ _ _ _ _ _ E) as (_ & Ht & Hs).
  rewrite Hs, Ht, size_of_stack_eq, top_of_stack_eq by assumption.
  set (x := to_size_t cfg (stack_alloc_ptr tcb' + size - 4)).
  pose proof (to_size_t_range cfg Hwf (stack_alloc_ptr tcb' + size - 4)) as Hx.
  fold x in Hx. pose proof (round_down4_bounds x) as Hb.
  assert (0 <= round_down4 x)
    by (unfold round_down4; pose proof (Z.div_pos x 4); lia).
  split; [apply round_down4_multiple |]. split; [lia |].
  apply to_size_t_range, Hwf.
Qed.

Lemma X1_adjusted_pointer_aligned_witness :
  let r := up_create_stack z80 10 TCB_FLAG_TTYPE_TASK
             (tcb_unallocated, bump_world 32769) in
  let tcb' := fst (snd r) in
  wf_config z80 /\
  r = (OK, (tcb', snd (snd r))) /\
  adj_stack_ptr tcb' mod 4 = 0 /\
  0 <= adj_stack_ptr tcb' < 2 ^ size_bits z80 /\
  0 <= adj_stack_size tcb' < 2 ^ size_bits z80.
Proof.
  cbv zeta.
  assert (Hwf : wf_config z80) by (unfold wf_config; cbn; lia).
  split; [exact Hwf |]. split; [reflexivity |].
  exact (X1_adjusted_pointer_aligned z80 Z bump_allocator
           tcb_unallocated (bump_world 32769) 10 TCB_FLAG_TTYPE_TASK
           _ _ Hwf eq_refl).
Defined.

(** X2: for a region in the address space of at least one word, the
    adjusted size is the requested size less [(base + size) mod 4], so at
    most 3 bytes are trimmed, and the adjusted pointer addresses the last
    word of the adjusted span. *)
Theorem X2_trimming_closed_form
    (cfg : config) (heap : Type) (A : MemoryAllocator heap)
    (tcb : tcb_s) (w : world heap) (size : Z) (ttype : ttype_t)
    (tcb' : tcb_s) (w' : world heap) :
  wf_config cfg ->
  up_create_stack cfg size ttype (tcb, w) = (OK, (tcb', w')) ->
  let base := stack_alloc_ptr tcb' in
  region_in_address_space cfg base size ->
  4 <= size ->
  adj_stack_size tcb' = size - (base + size) mod 4 /\
  adj_stack_ptr tcb' = base + adj_stack_size tcb' - 4 /\
  size - 3 <= adj_stack_size tcb' <= size.
Proof.
  intros Hwf E base Hreg Hword.
  destruct (create_ok _ _ _ _ _ _ _ E) as (_ & Ht & Hs). fold base in Ht, Hs.
  unfold region_in_address_space in Hreg. destruct Hreg as (Hb & Hn & Hend).
  rewrite size_of_stack_exact in Hs by (assumption || lia).
  rewrite <- Ht in Hs.
  rewrite top_of_stack_exact in Ht by (assumption || lia).
  assert (Hm : (base + size - 4) mod 4 = (base + size) mod 4).
  { replace (base + size - 4) with (base + size + (-1) * 4) by lia.
    apply Z.mod_add. lia. }
  unfold round_down4 in Ht.
  pose proof (Z.div_mod (base + size - 4) 4 ltac:(lia)) as Hd.
  pose proof (Z.mod_pos_bound (base + size) 4 ltac:(lia)) as Hr.
  rewrite Hm in Hd. lia.
Qed.

Lemma X2_trimming_closed_form_witness :
  let r := up_create_stack z80 10 TCB_FLAG_TTYPE_TASK
             (tcb_unallocated, bump_world 32769) in
  let tcb' := fst (snd r) in
  wf_config z80 /\
  r = (OK, (tcb', snd (snd r))) /\
  region_in_address_space z80 32769 10 /\
  4 <= 10 /\
  adj_stack_size tcb' = 10 - (32769 + 10) mod 4 /\
  adj_stack_ptr tcb' = 32769 + adj_stack_size tcb' - 4 /\
  10 - 3 <= adj_stack_size tcb' <= 10.
Proof.
  cbv zeta.
  assert (Hwf : wf_config z80) by (unfold wf_config; cbn; lia).
  assert (Hreg : region_in_address_space z80 32769 10)
    by (unfold region_in_address_space; cbn; lia).
  assert (H4 : 4 <= 10) by lia.
  split; [exact Hwf |]. split; [reflexivity |]. split; [exact Hreg |].
  split; [exact H4 |].
  exact (X2_trimming_closed_form z80 Z bump_allocator
           tcb_unallocated (bump_world 32769) 10 TCB_FLAG_TTYPE_TASK
           _ _ Hwf eq_refl Hreg H4).
Defined.

(** X3: after a successful call, a call for the adjusted size it recorded
    succeeds, calls neither allocator nor free, and leaves the descriptor
    and the heap exactly as they were. *)
Theorem X3_recorded_size_is_fixed_point
    (cfg : config) (heap : Type) (A : MemoryAllocator heap)
    (tcb0 : tcb_s) (w0 : world heap) (size : Z) (ttype1 ttype2 : ttype_t)
    (tcb1 : tcb_s) (w1 : world heap)
    (res : status) (tcb2 : tcb_s) (w2 : world heap) :
  wf_config cfg ->
  up_create_stack cfg size ttype1 (tcb0, w0) = (OK, (tcb1, w1)) ->
  up_create_stack cfg (adj_stack_size tcb1) ttype2 (tcb1, w1) = (res, (tcb2, w2)) ->
  res = OK /\ tcb2 = tcb1 /\ w_heap w2 = w_heap w1 /\
  malloc_calls (new_events w1 w2) = [] /\
  free_calls (new_events w1 w2) = [].
Proof.
  intros Hwf E1 E2.
  destruct (create_result _ _ _ _ _ _ _ _ E1) as [(_ & Hp & Ht) | (Hr & _)];
    [| discriminate].
  destruct (create_calls_reuse _ _ _ _ _ _ _ _ E2 Hp eq_refl) as (Hr & Hev & _ & Hh).
  rewrite Hev. repeat split; try assumption.
  rewrite create_reuse in E2 by (assumption || reflexivity).
  inversion E2 as [[Hres Htcb Hw]].
  rewrite Ht at 2. cbn [adj_stack_size adjusted].
  rewrite adjusted_fixed_point by assumption. symmetry. exact Ht.
Qed.

Lemma X3_recorded_size_is_fixed_point_witness :
  let s1 := after_create z80 10 in
  let r2 := up_create_stack z80 (adj_stack_size (fst s1)) TCB_FLAG_TTYPE_PTHREAD s1 in
  wf_config z80 /\
  up_create_stack z80 10 TCB_FLAG_TTYPE_TASK (tcb_unallocated, bump_world 32768)
    = (OK, s1) /\
  r2 = (fst r2, snd r2) /\
  fst r2 = OK /\ fst (snd r2) = fst s1 /\
  w_heap (snd (snd r2)) = w_heap (snd s1) /\
  malloc_calls (new_events (snd s1) (snd (snd r2))) = [] /\
  free_calls (new_events (snd s1) (snd (snd r2))) = [].
Proof.
  cbv zeta.
  assert (Hwf : wf_config z80) by (unfold wf_config; cbn; lia).
  split; [exact Hwf |]. split; [reflexivity |]. split; [reflexivity |].
  exact (X3_recorded_size_is_fixed_point z80 Z bump_allocator
           tcb_unallocated (bump_world 32768) 10
           TCB_FLAG_TTYPE_TASK TCB_FLAG_TTYPE_PTHREAD
           (fst (after_create z80 10)) (snd (after_create z80 10))
           _ _ _ Hwf eq_refl eq_refl).
Defined.

(** X4: the result is [OK] exactly when the descriptor holds a region when
    the call returns. *)
Theorem X4_ok_iff_region_held
    (cfg : config) (heap : Type) (A : MemoryAllocator heap)
    (tcb : tcb_s) (w : world heap) (size : Z) (ttype : ttype_t)
    (res : status) (tcb' : tcb_s) (w' : world heap) :
  up_create_stack cfg size ttype (tcb, w) = (res, (tcb', w')) ->
  (res = OK <-> stack_alloc_ptr tcb' <> 0).
Proof.
  intros E.
  destruct (create_result _ _ _ _ _ _ _ _ E) as [(Hr & Hp & _) | (Hr & Hp)];
    subst res; split; intros Hx; try assumption; try reflexivity;
    try discriminate; contradiction.
Qed.

Lemma X4_ok_iff_region_held_witness :
  let r := up_create_stack z80 256 TCB_FLAG_TTYPE_TASK
             (tcb_unallocated, bump_world 65500) in
  r = (fst r, snd r) /\
  (fst r = OK <-> stack_alloc_ptr (fst (snd r)) <> 0).
Proof.
  cbv zeta. split; [reflexivity |].
  exact (X4_ok_iff_region_held z80 Z bump_allocator
           tcb_unallocated (bump_world 65500) 256 TCB_FLAG_TTYPE_TASK
           _ _ _ eq_refl).
Defined.

(** X5: a call that fails on a descriptor without a region leaves the
    descriptor, both adjusted fields included, and the memory as they
    were. *)
Theorem X5_failure_keeps_unallocated_descriptor
    (cfg : config) (heap : Type) (A : MemoryAllocator heap)
    (tcb : tcb_s) (w : world heap) (size : Z) (ttype : ttype_t)
    (tcb' : tcb_s) (w' : world heap) :
  stack_alloc_ptr tcb = 0 ->
  up_create_stack cfg size ttype (tcb, w) = (ERROR, (tcb', w')) ->
  tcb' = tcb /\ forall a, w_mem w' a = w_mem w a.
Proof.
  intros Hp E. rewrite create_fresh in E by assumption. cbv zeta in E.
  match type of E with context [fst ?r =? 0] => destruct (fst r =? 0) end;
    inversion E; subst tcb' w'.
  split; [| reflexivity].
  destruct tcb as [p a n]. cbn in Hp |- *. now subst p.
Qed.

Lemma X5_failure_keeps_unallocated_descriptor_witness :
  let tcb := {| stack_alloc_ptr := 0; adj_stack_ptr := 33276; adj_stack_size := 512 |} in
  let r := up_create_stack z80_kernel 256 TCB_FLAG_TTYPE_KERNEL (tcb, bump_world 65500) in
  stack_alloc_ptr tcb = 0 /\
  r = (ERROR, snd r) /\
  fst (snd r) = tcb /\ forall a, w_mem (snd (snd r)) a = w_mem (bump_world 65500) a.
Proof.
  cbv zeta. split; [reflexivity |]. split; [reflexivity |].
  exact (X5_failure_keeps_unallocated_descriptor z80_kernel Z bump_allocator
           {| stack_alloc_ptr := 0; adj_stack_ptr := 33276; adj_stack_size := 512 |}
           (bump_world 65500) 256 TCB_FLAG_TTYPE_KERNEL _ _ eq_refl eq_refl).
Defined.

(** X6: the failure message is printed once, with the requested size, when
    the call fails in a build with debug features, and in no other case:
    never on success and never in a build without them. *)
Theorem X6_failure_message_only_on_debug_failure
    (cfg : config) (heap : Type) (A : MemoryAllocator heap)
    (tcb : tcb_s) (w : world heap) (size : Z) (ttype : ttype_t)
    (res : status) (tcb' : tcb_s) (w' : world heap) :
  up_create_stack cfg size ttype (tcb, w) = (res, (tcb', w')) ->
  serr_calls (new_events w w') =
    match res with
    | OK => []
    | ERROR => if CONFIG_DEBUG_FEATURES cfg then [size] else []
    end.
Proof.
  intros E. rewrite (create_events _ _ _ _ _ _ _ _ E).
  destruct (must_release tcb size),
    (negb (stack_alloc_ptr tcb =? 0) && (adj_stack_size tcb =? size)),
    res, (CONFIG_DEBUG_FEATURES cfg); reflexivity.
Qed.

Lemma X6_failure_message_only_on_debug_failure_witness :
  let r := up_create_stack z80_kernel 256 TCB_FLAG_TTYPE_KERNEL
             (tcb_unallocated, bump_world 65500) in
  r = (ERROR, snd r) /\
  serr_calls (new_events (bump_world 65500) (snd (snd r))) =
    if CONFIG_DEBUG_FEATURES z80_kernel then [256] else [].
Proof.
  cbv zeta. split; [reflexivity |].
  exact (X6_failure_message_only_on_debug_failure z80_kernel Z bump_allocator
           tcb_unallocated (bump_world 65500) 256 TCB_FLAG_TTYPE_KERNEL
           ERROR _ _ eq_refl).
Defined.

(** X7: the stack-created LED is switched on once, as the last call, by
    every successful call, on a fresh region and on a reused one alike, and
    never by a failed call. *)
Theorem X7_led_on_success_only
    (cfg : config) (heap : Type) (A : MemoryAllocator heap)
    (tcb : tcb_s) (w : world heap) (size : Z) (ttype : ttype_t)
    (res : status) (tcb' : tcb_s) (w' : world heap) :
  up_create_stack cfg size ttype (tcb, w) = (res, (tcb', w')) ->
  autoled_calls (new_events w w') =
    match res with OK => [LED_STACKCREATED cfg] | ERROR => [] end /\
  (res = OK ->
   exists evs, new_events w w' = evs ++ [EvAutoledOn (LED_STACKCREATED cfg)] /\
               autoled_calls evs = []).
Proof.
  intros E. rewrite (create_events _ _ _ _ _ _ _ _ E). split.
  - destruct (must_release tcb size),
      (negb (stack_alloc_ptr tcb =? 0) && (adj_stack_size tcb =? size)),
      res, (CONFIG_DEBUG_FEATURES cfg); reflexivity.
  - intros ->. rewrite app_assoc. eexists. split; [reflexivity |].
    destruct (must_release tcb size),
      (negb (stack_alloc_ptr tcb =? 0) && (adj_stack_size tcb =? size));
      reflexivity.
Qed.

Lemma X7_led_on_success_only_witness :
  let s1 := after_create z80 512 in
  let r2 := up_create_stack z80 512 TCB_FLAG_TTYPE_TASK s1 in
  r2 = (OK, snd r2) /\
  autoled_calls (new_events (snd s1) (snd (snd r2))) = [LED_STACKCREATED z80] /\
  (OK = OK ->
   exists evs, new_events (snd s1) (snd (snd r2))
                 = evs ++ [EvAutoledOn (LED_STACKCREATED z80)] /\
               autoled_calls evs = []).
Proof.
  cbv zeta. split; [reflexivity |].
  exact (X7_led_on_success_only z80 Z bump_allocator
           (fst (after_create z80 512)) (snd (after_create z80 512))
           512 TCB_FLAG_TTYPE_TASK OK _ _ eq_refl).
Defined.

(** X8: in a build without stack coloration no call writes a byte of
    memory, whatever path it takes. *)
Theorem X8_no_fill_without_coloration
    (cfg : config) (heap : Type) (A : MemoryAllocator heap)
    (tcb : tcb_s) (w : world heap) (size : Z) (ttype : ttype_t)
    (res : status) (tcb' : tcb_s) (w' : world heap) :
  CONFIG_STACK_COLORATION cfg = false ->
  up_create_stack cfg size ttype (tcb, w) = (res, (tcb', w')) ->
  forall a, w_mem w' a = w_mem w a.
Proof.
  intros Hc E a. rewrite create_cases in E. cbv zeta in E. rewrite Hc in E.
  destruct (negb (stack_alloc_ptr tcb =? 0) && (adj_stack_size tcb =? size));
    [| match type of E with context [fst ?r =? 0] => destruct (fst r =? 0) end];
    inversion E; subst res tcb' w'; reflexivity.
Qed.

Lemma X8_no_fill_without_coloration_witness :
  let r := up_create_stack z80 8 TCB_FLAG_TTYPE_TASK
             (poke 32772 18 (after_create z80 8)) in
  CONFIG_STACK_COLORATION z80 = false /\
  r = (fst r, snd r) /\
  forall a, w_mem (snd (snd r)) a = w_mem (snd (poke 32772 18 (after_create z80 8))) a.
Proof.
  cbv zeta. split; [reflexivity |]. split; [reflexivity |].
  exact (X8_no_fill_without_coloration z80 Z bump_allocator
           (fst (poke 32772 18 (after_create z80 8)))
           (snd (poke 32772 18 (after_create z80 8)))
           8 TCB_FLAG_TTYPE_TASK _ _ _ eq_refl eq_refl).
Defined.

(** X9: with stack coloration, after a successful call on a region in the
    address space of at least one word, every byte of the adjusted stack,
    from [adj_stack_ptr + 4 - adj_stack_size] up to the end of the word at
    [adj_stack_ptr], holds [0xAA]. *)
Theorem X9_adjusted_stack_is_colored
    (cfg : config) (heap : Type) (A : MemoryAllocator heap)
    (tcb : tcb_s) (w : world heap) (size : Z) (ttype : ttype_t)
    (tcb' : tcb_s) (w' : world heap) :
  wf_config cfg ->
  CONFIG_STACK_COLORATION cfg = true ->
  up_create_stack cfg size ttype (tcb, w) = (OK, (tcb', w')) ->
  region_in_address_space cfg (stack_alloc_ptr tcb') size ->
  4 <= size ->
  forall a, adj_stack_ptr tcb' + 4 - adj_stack_size tcb' <= a < adj_stack_ptr tcb' + 4 ->
            w_mem w' a = 170.
Proof.
  intros Hwf Hc E Hreg Hword a Ha.
  destruct (create_ok _ _ _ _ _ _ _ E) as (_ & Ht & Hs).
  destruct (adjusted_in_region cfg Hwf _ _ Hreg Hword) as (Hb & _ & Hsz).
  rewrite Hs, Ht, Hsz in Ha.
  assert (Hin : stack_alloc_ptr tcb' <= a < stack_alloc_ptr tcb' + size) by lia.
  assert (Hmem : w_mem w' a = colored (w_mem w) (stack_alloc_ptr tcb') size a).
  { rewrite create_cases in E. cbv zeta in E. rewrite Hc in E.
    destruct (negb (stack_alloc_ptr tcb =? 0) && (adj_stack_size tcb =? size));
      [| match type of E with context [fst ?r =? 0] => destruct (fst r =? 0) end];
      inversion E; subst tcb' w'; reflexivity. }
  rewrite Hmem. unfold colored.
  destruct (Z.leb_spec (stack_alloc_ptr tcb') a),
    (Z.ltb_spec a (stack_alloc_ptr tcb' + size)); cbn; try reflexivity; lia.
Qed.

Lemma X9_adjusted_stack_is_colored_witness :
  let r := up_create_stack z80_colored 10 TCB_FLAG_TTYPE_TASK
             (tcb_unallocated, bump_world 32768) in
  let tcb' := fst (snd r) in
  wf_config z80_colored /\
  CONFIG_STACK_COLORATION z80_colored = true /\
  r = (OK, (tcb', snd (snd r))) /\
  region_in_address_space z80_colored (stack_alloc_ptr tcb') 10 /\
  4 <= 10 /\
  forall a, adj_stack_ptr tcb' + 4 - adj_stack_size tcb' <= a < adj_stack_ptr tcb' + 4 ->
            w_mem (snd (snd r)) a = 170.
Proof.
  cbv zeta.
  assert (Hwf : wf_config z80_colored) by (unfold wf_config; cbn; lia).
  assert (Hreg : region_in_address_space z80_colored
                   (stack_alloc_ptr (fst (after_create z80_colored 10))) 10)
    by (unfold region_in_address_space; vm_compute; repeat split; discriminate).
  assert (H4 : 4 <= 10) by lia.
  split; [exact Hwf |]. split; [reflexivity |]. split; [reflexivity |].
  split; [exact Hreg |]. split; [exact H4 |].
  exact (X9_adjusted_stack_is_colored z80_colored Z bump_allocator
           tcb_unallocated (bump_world 32768) 10 TCB_FLAG_TTYPE_TASK
           _ _ Hwf eq_refl eq_refl Hreg H4).
Defined.

(** X10: the thread type matters only through the choice of the heap: two
    calls that differ in the thread type alone behave alike when the build
    has no kernel heap, or when neither is for a kernel thread (a task and a
    pthread are never told apart). *)
Theorem X10_thread_type_only_selects_heap
    (cfg : config) (heap : Type) (A : MemoryAllocator heap)
    (tcb : tcb_s) (w : world heap) (size : Z) (ttype1 ttype2 : ttype_t) :
  CONFIG_MM_KERNEL_HEAP cfg = false \/
  (ttype1 <> TCB_FLAG_TTYPE_KERNEL /\ ttype2 <> TCB_FLAG_TTYPE_KERNEL) ->
  up_create_stack cfg size ttype1 (tcb, w) = up_create_stack cfg size ttype2 (tcb, w).
Proof.
  intros Hsame.
  assert (Hd : select_domain cfg ttype1 = select_domain cfg ttype2).
  { unfold select_domain. destruct Hsame as [Hk | (H1 & H2)].
    - rewrite Hk, !andb_false_r. reflexivity.
    - destruct ttype1, ttype2; try reflexivity; contradiction. }
  rewrite !create_cases. cbv zeta. rewrite Hd. reflexivity.
Qed.

Lemma X10_thread_type_only_selects_heap_witness :
  (CONFIG_MM_KERNEL_HEAP z80_kernel = false \/
   (TCB_FLAG_TTYPE_TASK <> TCB_FLAG_TTYPE_KERNEL /\
    TCB_FLAG_TTYPE_PTHREAD <> TCB_FLAG_TTYPE_KERNEL)) /\
  up_create_stack z80_kernel 512 TCB_FLAG_TTYPE_TASK (after_create z80_kernel 10) =
  up_create_stack z80_kernel 512 TCB_FLAG_TTYPE_PTHREAD (after_create z80_kernel 10).
Proof.
  assert (Hsame : CONFIG_MM_KERNEL_HEAP z80_kernel = false \/
                  (TCB_FLAG_TTYPE_TASK <> TCB_FLAG_TTYPE_KERNEL /\
                   TCB_FLAG_TTYPE_PTHREAD <> TCB_FLAG_TTYPE_KERNEL))
    by (right; split; discriminate).
  split; [exact Hsame |].
  exact (X10_thread_type_only_selects_heap z80_kernel Z bump_allocator
           (fst (after_create z80_kernel 10)) (snd (after_create z80_kernel 10))
           512 TCB_FLAG_TTYPE_TASK TCB_FLAG_TTYPE_PTHREAD Hsame).
Defined.

(** X11: debug features only add the failure message: with and without them
    a call returns the same result and leaves the same descriptor, heap and
    memory, after the same calls to the allocator, to free and to the LED
    hook. *)
Theorem X11_debug_features_only_observe
    (cfg : config) (heap : Type) (A : MemoryAllocator heap)
    (tcb : tcb_s) (w : world heap) (size : Z) (ttype : ttype_t)
    (res1 res2 : status) (tcb1 tcb2 : tcb_s) (w1 w2 : world heap) :
  up_create_stack (set_debug cfg true) size ttype (tcb, w) = (res1, (tcb1, w1)) ->
  up_create_stack (set_debug cfg false) size ttype (tcb, w) = (res2, (tcb2, w2)) ->
  res1 = res2 /\ tcb1 = tcb2 /\ w_heap w1 = w_heap w2 /\
  (forall a, w_mem w1 a = w_mem w2 a) /\
  malloc_calls (new_events w w1) = malloc_calls (new_events w w2) /\
  free_calls (new_events w w1) = free_calls (new_events w w2) /\
  autoled_calls (new_events w w1) = autoled_calls (new_events w w2).
Proof.
  intros E1 E2.
  pose proof (create_events _ _ _ _ _ _ _ _ E1) as Hev1.
  pose proof (create_events _ _ _ _ _ _ _ _ E2) as Hev2.
  rewrite create_cases in E1, E2. cbv zeta in E1, E2.
  change (select_domain (set_debug cfg true) ttype)
    with (select_domain cfg ttype) in *.
  change (select_domain (set_debug cfg false) ttype)
    with (select_domain cfg ttype) in *.
  assert (Hres : res1 = res2 /\ tcb1 = tcb2 /\ w_heap w1 = w_heap w2 /\
                 (forall a, w_mem w1 a = w_mem w2 a)).
  { destruct (negb (stack_alloc_ptr tcb =? 0) && (adj_stack_size tcb =? size));
      [| match type of E1 with context [fst ?r =? 0] => destruct (fst r =? 0) end];
      inversion E1; inversion E2; subst; repeat split; reflexivity. }
  destruct Hres as (Hr & Ht & Hh & Hm). subst res2 tcb2.
  repeat split; try assumption; rewrite Hev1, Hev2;
    destruct (must_release tcb size),
      (negb (stack_alloc_ptr tcb =? 0) && (adj_stack_size tcb =? size)),
      res1; reflexivity.
Qed.

Lemma X11_debug_features_only_observe_witness :
  let r1 := up_create_stack (set_debug z80 true) 256 TCB_FLAG_TTYPE_TASK
              (after_create z80 65000) in
  let r2 := up_create_stack (set_debug z80 false) 256 TCB_FLAG_TTYPE_TASK
              (after_create z80 65000) in
  let w := snd (after_create z80 65000) in
  r1 = (fst r1, snd r1) /\ r2 = (fst r2, snd r2) /\
  fst r1 = fst r2 /\ fst (snd r1) = fst (snd r2) /\
  w_heap (snd (snd r1)) = w_heap (snd (snd r2)) /\
  (forall a, w_mem (snd (snd r1)) a = w_mem (snd (snd r2)) a) /\
  malloc_calls (new_events w (snd (snd r1))) = malloc_calls (new_events w (snd (snd r2))) /\
  free_calls (new_events w (snd (snd r1))) = free_calls (new_events w (snd (snd r2))) /\
  autoled_calls (new_events w (snd (snd r1))) = autoled_calls (new_events w (snd (snd r2))).
Proof.
  cbv zeta. split; [reflexivity |]. split; [reflexivity |].
  exact (X11_debug_features_only_observe z80 Z bump_allocator
           (fst (after_create z80 65000)) (snd (after_create z80 65000))
           256 TCB_FLAG_TTYPE_TASK _ _ _ _ _ _ eq_refl eq_refl).
Defined.
